(** * RN-TSCodegen: the component command parser

    A shallow embedding of [parseCommands]
    (packages/RN-TSCodegen/src/ComponentCommandParser.ts) and the
    properties of it that the specification states.

    The parser walks TypeScript compiler objects.  The part of the
    compiler API it touches is modelled first (syntax nodes,
    declarations, symbols, semantic types, the type checker), then the
    codegen schema it emits, then the function itself, statement by
    statement.  A JavaScript [throw] is an explicit [Throw] result;
    reading a property of [undefined] is a [Throw] of a [TypeError]. *)

From Stdlib Require Import List String Bool Arith NArith Lia.
Import ListNotations.
Local Open Scope string_scope.
Local Open Scope list_scope.
Set Warnings "-register-all".

(** ** Results of a computation that may throw *)

(** [Error] is [new Error(message)], the only exception the parser
    raises on purpose.  [TypeError] is what the engine raises when a
    property is read from [undefined]; it records the property. *)
Inductive Exception : Type :=
| Error (message : string)
| TypeError (property : string).

Inductive Result (A : Type) : Type :=
| Return (a : A)
| Throw (e : Exception).

Arguments Return {A} a.
Arguments Throw {A} e.

Definition bind {A B : Type} (r : Result A) (k : A -> Result B) : Result B :=
  match r with
  | Return a => k a
  | Throw e => Throw e
  end.

Notation "x <- c1 ;; c2" := (bind c1 (fun x => c2))
  (at level 61, c1 at next level, right associativity).

(** [Array.prototype.map] with a callback that may throw: the elements
    are visited in index order and the first throw ends the call. *)
Fixpoint mapE {A B : Type} (f : A -> Result B) (l : list A) : Result (list B) :=
  match l with
  | [] => Return []
  | x :: xs => y <- f x ;; ys <- mapE f xs ;; Return (y :: ys)
  end.

Definition isDefined {A : Type} (o : option A) : bool :=
  match o with Some _ => true | None => false end.

(** ** The TypeScript compiler API, as far as the parser uses it *)

(** Syntax nodes that can stand where the parser looks for a type.  A
    [TypeReferenceNode] is [typeName<typeArguments>]; [typeName] is kept
    as its text ([typeName.getText()]), the last field is the text of the
    whole node.  A literal type such as ['MyView'] is a
    [LiteralTypeNode] whose [literal] is the [StringLiteral] token:
    the token itself has kind [SyntaxKind.StringLiteral], the type node
    wrapping it has kind [SyntaxKind.LiteralType].  [ts.isStringLiteral]
    and [ts.isTypeReferenceNode] test the kind of the node they are
    given, so [isStringLiteral] answers no on a [LiteralTypeNode]. *)
Inductive Node : Type :=
| TypeReferenceNode (typeName : string) (typeArguments : option (list Node)) (text : string)
| LiteralTypeNode (literal : Node)
| StringLiteral (text : string)
| OtherNode (text : string).

Fixpoint getText (n : Node) : string :=
  match n with
  | TypeReferenceNode _ _ text => text
  | LiteralTypeNode literal => getText literal
  | StringLiteral text => text
  | OtherNode text => text
  end.

Definition isTypeReferenceNode (n : Node) : bool :=
  match n with TypeReferenceNode _ _ _ => true | _ => false end.

Definition isStringLiteral (n : Node) : bool :=
  match n with StringLiteral _ => true | _ => false end.

(** The [?] token of an optional member. *)
Inductive QuestionToken : Type := questionMark.

Record ParameterDeclaration : Type := {
  param_name : string;          (* [param.name.getText()] *)
  param_type : option Node      (* [param.type], absent without annotation *)
}.

(** What [ts.MethodSignature] and [ts.CallSignatureDeclaration] share. *)
Record SignatureDeclaration : Type := {
  typeParameters : option (list string);
  parameters : list ParameterDeclaration;
  type : option Node;
  questionToken : option QuestionToken
}.

Record PropertySignatureDeclaration : Type := {
  prop_type : option Node;
  prop_questionToken : option QuestionToken
}.

Inductive Declaration : Type :=
| MethodSignature (d : SignatureDeclaration)
| CallSignatureDeclaration (d : SignatureDeclaration)
| PropertySignature (d : PropertySignatureDeclaration)
| ParameterNode (d : ParameterDeclaration)
| OtherDeclaration.

Definition declQuestionToken (decl : Declaration) : option QuestionToken :=
  match decl with
  | MethodSignature d | CallSignatureDeclaration d => questionToken d
  | PropertySignature d => prop_questionToken d
  | _ => None
  end.

(** [ts.Symbol].  A symbol that comes from a declaration lists its
    declaration sites; one that the checker makes up (a member of a
    mapped type, a parameter of a signature merged from a union) has no
    [declarations] property at all, which is [None] here. *)
Record Symbol : Type := {
  symbol_name : string;
  declarations : option (list Declaration)
}.

(** Semantic types and their call signatures.  [flags] and
    [aliasSymbol] are what a type-category predicate can look at;
    [getCallSignatures] is optional because the parser tests its result
    against [undefined]. *)
Inductive tsType : Type :=
  mkType (flags : N) (aliasSymbol : option string)
         (getProperty : string -> option Symbol)
         (getCallSignatures : option (list Signature))
with Signature : Type :=
  mkSignature (sig_typeParameters : option (list string))
              (sig_parameters : list Symbol)
              (getReturnType : tsType).

Definition flags (t : tsType) : N :=
  match t with mkType f _ _ _ => f end.
Definition aliasSymbol (t : tsType) : option string :=
  match t with mkType _ a _ _ => a end.
Definition getProperty (t : tsType) : string -> option Symbol :=
  match t with mkType _ _ p _ => p end.
Definition getCallSignatures (t : tsType) : option (list Signature) :=
  match t with mkType _ _ _ s => s end.
Definition sig_typeParameters (s : Signature) : option (list string) :=
  match s with mkSignature tp _ _ => tp end.
Definition sig_parameters (s : Signature) : list Symbol :=
  match s with mkSignature _ ps _ => ps end.
Definition getReturnType (s : Signature) : tsType :=
  match s with mkSignature _ _ r => r end.

(** The checker is asked about [decl.type] and [param.type], which may
    be absent: its argument is optional.  It answers every call (for an
    absent node the compiler hands back its error type). *)
Record TypeChecker : Type := {
  getTypeFromTypeNode : option Node -> tsType
}.

Record Program : Type := {
  getTypeChecker : TypeChecker
}.

(** [ExportCommandInfo] of ExportParser.ts: the fields the parser reads. *)
Record ExportCommandInfo : Type := {
  program : Program;
  typeNode : Node;
  supportedCommands : list string
}.

(** ** The codegen schema (CodegenSchema.ts), as the parser builds it *)

Inductive CommandsTypeAnnotation : Type :=
| StringTypeAnnotation
| BooleanTypeAnnotation
| Int32TypeAnnotation.

Record CommandsFunctionTypeParamAnnotation : Type := {
  pa_name : string;
  pa_typeAnnotation : CommandsTypeAnnotation
}.

(** [{ type: 'FunctionTypeAnnotation', params }]. *)
Record FunctionTypeAnnotation : Type := {
  fta_type : string;
  params : list CommandsFunctionTypeParamAnnotation
}.

Record CommandTypeShape : Type := {
  name : string;
  optional : bool;
  typeAnnotation : FunctionTypeAnnotation
}.

(** ** The messages of the eight [throw] statements *)

Definition msgNotFound (commandName typeText : string) : string :=
  "Unable to find command " ++ commandName ++ " in type " ++ typeText ++ ".".

Definition msgGeneric (commandName typeText : string) : string :=
  "Command " ++ commandName ++ " in type " ++ typeText ++ " should not be generic.".

Definition msgNotAParameter (parameterName commandName typeText : string) : string :=
  "Parameter " ++ parameterName ++ " in command " ++ commandName ++ " in type "
    ++ typeText ++ " should be a parameter.".

Definition msgNotAFunction (commandName typeText : string) : string :=
  "Command " ++ commandName ++ " in type " ++ typeText ++ " should be a function.".

Definition msgNotVoid (commandName typeText : string) : string :=
  "Command " ++ commandName ++ " in type " ++ typeText ++ " should return void.".

Definition msgNoParameter (commandName typeText : string) : string :=
  "Command " ++ commandName ++ " in type " ++ typeText
    ++ " should have at least one parameter.".

Definition msgNotRef (commandName typeText : string) : string :=
  "The first parameter in command " ++ commandName ++ " in type " ++ typeText
    ++ " should be React.Ref<'NAME'>.".

Definition msgUnsupported (parameterName commandName typeText declared : string) : string :=
  "Parameter " ++ parameterName ++ " in command " ++ commandName ++ " in type "
    ++ typeText ++ " should be either string, boolean or Int32, instead of "
    ++ declared ++ ".".

(** The errors the parser raises on purpose. *)
Inductive Documented : Exception -> Prop :=
| DocNotFound c t : Documented (Error (msgNotFound c t))
| DocGeneric c t : Documented (Error (msgGeneric c t))
| DocNotAParameter p c t : Documented (Error (msgNotAParameter p c t))
| DocNotAFunction c t : Documented (Error (msgNotAFunction c t))
| DocNotVoid c t : Documented (Error (msgNotVoid c t))
| DocNoParameter c t : Documented (Error (msgNoParameter c t))
| DocNotRef c t : Documented (Error (msgNotRef c t))
| DocUnsupported p c t d : Documented (Error (msgUnsupported p c t d)).

(** The same errors, for a given command and a given text of the owning
    type: the two strings every message embeds. *)
Inductive RaisedFor (c t : string) : Exception -> Prop :=
| ForNotFound : RaisedFor c t (Error (msgNotFound c t))
| ForGeneric : RaisedFor c t (Error (msgGeneric c t))
| ForNotAParameter p : RaisedFor c t (Error (msgNotAParameter p c t))
| ForNotAFunction : RaisedFor c t (Error (msgNotAFunction c t))
| ForNotVoid : RaisedFor c t (Error (msgNotVoid c t))
| ForNoParameter : RaisedFor c t (Error (msgNoParameter c t))
| ForNotRef : RaisedFor c t (Error (msgNotRef c t))
| ForUnsupported p d : RaisedFor c t (Error (msgUnsupported p c t d)).

(** ** The parser *)

(** [isBoolean], [isInt32], [isString] and [isVoid] are imported from
    TypeChecker.ts; the parser only needs them to be predicates on
    semantic types, and is modelled over any four such predicates. *)
Class TypeCategories : Type := {
  isBoolean : tsType -> bool;
  isInt32 : tsType -> bool;
  isString : tsType -> bool;
  isVoid : tsType -> bool
}.

Section ComponentCommandParser.

Context {categories : TypeCategories}.

(** [x !== undefined && x.length !== 0] of lines 24 and 34. *)
Definition declaresTypeParameters (tps : option (list string)) : bool :=
  match tps with
  | Some l => negb (Nat.eqb (List.length l) 0)
  | None => false
  end.

(** What lines 17-19 declare and lines 27-29 or 37-45 assign. *)
Record ResolvedSignature : Type := {
  funcDecl : Declaration;
  funcReturnType : tsType;
  funcParameters : list ParameterDeclaration
}.

(** The callback of lines 39-45.  Line 40 reads
    [parameterSymbol.declarations.length] first. *)
Definition parameterOfSymbol (commandName typeText : string)
    (parameterSymbol : Symbol) : Result ParameterDeclaration :=
  match declarations parameterSymbol with
  | None => Throw (TypeError "length")
  | Some [ParameterNode p] => Return p
  | Some _ =>
      Throw (Error (msgNotAParameter (symbol_name parameterSymbol) commandName typeText))
  end.

(** Lines 21-48.  Line 21 reads [methodSymbol.declarations.length]
    first.  A returned [None] is the state in which [funcDecl] was never
    assigned. *)
Definition resolveSignature (typeChecker : TypeChecker)
    (commandName typeText : string) (methodSymbol : Symbol)
    : Result (option ResolvedSignature) :=
  match declarations methodSymbol with
  | None => Throw (TypeError "length")
  | Some [decl] =>
      match decl with
      | MethodSignature d | CallSignatureDeclaration d =>
          if declaresTypeParameters (typeParameters d)
          then Throw (Error (msgGeneric commandName typeText))
          else Return (Some {| funcDecl := decl;
                               funcReturnType := getTypeFromTypeNode typeChecker (type d);
                               funcParameters := parameters d |})
      | PropertySignature d =>
          let propType := getTypeFromTypeNode typeChecker (prop_type d) in
          match getCallSignatures propType with
          | Some [signature] =>
              if declaresTypeParameters (sig_typeParameters signature)
              then Throw (Error (msgGeneric commandName typeText))
              else
                ps <- mapE (parameterOfSymbol commandName typeText)
                           (sig_parameters signature) ;;
                Return (Some {| funcDecl := decl;
                                funcReturnType := getReturnType signature;
                                funcParameters := ps |})
          | _ => Return None
          end
      | _ => Return None
      end
  | Some _ => Return None
  end.

(** The condition of lines 61-66 on a first parameter that has a type
    node: [true] means the parser throws. *)
Definition refShapeRejected (viewRefType : Node) : bool :=
  match viewRefType with
  | TypeReferenceNode typeName typeArguments _ =>
      negb (String.eqb typeName "React.Ref")
      && match typeArguments with
         | Some args =>
             Nat.eqb (List.length args) 1
             && match nth_error args 0 with
                | Some arg => isStringLiteral arg
                | None => false
                end
         | None => false
         end
  | _ => true
  end.

(** Lines 79-85: the first category that answers yes. *)
Definition classify (paramType : tsType) : option CommandsTypeAnnotation :=
  if isString paramType then Some StringTypeAnnotation
  else if isBoolean paramType then Some BooleanTypeAnnotation
  else if isInt32 paramType then Some Int32TypeAnnotation
  else None.

(** The callback of lines 75-95. *)
Definition parseParam (typeChecker : TypeChecker) (commandName typeText : string)
    (param : ParameterDeclaration) : Result CommandsFunctionTypeParamAnnotation :=
  let paramType := getTypeFromTypeNode typeChecker (param_type param) in
  match classify paramType with
  | Some typeAnnotation =>
      Return {| pa_name := param_name param; pa_typeAnnotation := typeAnnotation |}
  | None =>
      match param_type param with
      | Some declared =>
          Throw (Error (msgUnsupported (param_name param) commandName typeText
                                       (getText declared)))
      | None => Throw (TypeError "getText")
      end
  end.

(** Lines 53-97, from a resolved signature to the pushed command. *)
Definition validateSignature (typeChecker : TypeChecker)
    (commandName typeText : string) (rs : ResolvedSignature)
    : Result CommandTypeShape :=
  if negb (isVoid (funcReturnType rs))
  then Throw (Error (msgNotVoid commandName typeText))
  else
    match funcParameters rs with
    | [] => Throw (Error (msgNoParameter commandName typeText))
    | first :: rest =>
        match param_type first with
        | None => Throw (TypeError "kind")
        | Some viewRefType =>
            if refShapeRejected viewRefType
            then Throw (Error (msgNotRef commandName typeText))
            else
              ps <- mapE (parseParam typeChecker commandName typeText) rest ;;
              Return {| name := commandName;
                        optional := isDefined (declQuestionToken (funcDecl rs));
                        typeAnnotation := {| fta_type := "FunctionTypeAnnotation";
                                             params := ps |} |}
        end
    end.

(** Line 8. *)
Definition mappedType (info : ExportCommandInfo) : tsType :=
  getTypeFromTypeNode (getTypeChecker (program info)) (Some (typeNode info)).

(** One turn of the loop, lines 12-97, up to the [push]. *)
Definition parseCommand (info : ExportCommandInfo) (commandName : string)
    : Result CommandTypeShape :=
  let typeChecker := getTypeChecker (program info) in
  let typeText := getText (typeNode info) in
  match getProperty (mappedType info) commandName with
  | None => Throw (Error (msgNotFound commandName typeText))
  | Some methodSymbol =>
      resolved <- resolveSignature typeChecker commandName typeText methodSymbol ;;
      match resolved with
      | None => Throw (Error (msgNotAFunction commandName typeText))
      | Some rs => validateSignature typeChecker commandName typeText rs
      end
  end.

(** The [for ... of] loop with its accumulator [commands]. *)
Fixpoint forOf (info : ExportCommandInfo) (names : list string)
    (commands : list CommandTypeShape) : Result (list CommandTypeShape) :=
  match names with
  | [] => Return commands
  | commandName :: rest =>
      command <- parseCommand info commandName ;;
      forOf info rest (commands ++ [command])
  end.

Definition parseCommands (info : ExportCommandInfo) : Result (list CommandTypeShape) :=
  forOf info (supportedCommands info) [].

(** The loop gets as far as [commandName]: every name requested
    before it went through. *)
Definition reaches (info : ExportCommandInfo) (commandName : string) : Prop :=
  exists before after,
    supportedCommands info = before ++ commandName :: after
    /\ Forall (fun n => exists c, parseCommand info n = Return c) before.

(** The signature the parser settles on for [commandName]. *)
Definition resolvesTo (info : ExportCommandInfo) (commandName : string)
    (rs : ResolvedSignature) : Prop :=
  exists methodSymbol,
    getProperty (mappedType info) commandName = Some methodSymbol
    /\ resolveSignature (getTypeChecker (program info)) commandName
         (getText (typeNode info)) methodSymbol = Return (Some rs).

(** Explicit annotations: the return type of a resolved declaration
    (the type of the property when the declaration is one) and the
    type of each of its parameters. *)
Definition returnAnnotated (decl : Declaration) : bool :=
  match decl with
  | MethodSignature d | CallSignatureDeclaration d => isDefined (type d)
  | PropertySignature d => isDefined (prop_type d)
  | _ => true
  end.

Definition fullyAnnotated (rs : ResolvedSignature) : bool :=
  returnAnnotated (funcDecl rs)
  && forallb (fun p => isDefined (param_type p)) (funcParameters rs).

Definition explicitlyAnnotated (info : ExportCommandInfo) : Prop :=
  forall commandName rs,
    In commandName (supportedCommands info) ->
    resolvesTo info commandName rs ->
    fullyAnnotated rs = true.

(** Every parameter of every signature resolved for a requested name
    has a type annotation. *)
Definition parametersAnnotated (info : ExportCommandInfo) : Prop :=
  forall commandName rs,
    In commandName (supportedCommands info) ->
    resolvesTo info commandName rs ->
    forallb (fun p => isDefined (param_type p)) (funcParameters rs) = true.

(** Every symbol whose [declarations] the parser reads has them: the
    member of each requested name and, for a member declared as a
    property with one call signature, the parameters of that
    signature. *)
Definition declarationsPresent (info : ExportCommandInfo) : Prop :=
  forall commandName methodSymbol,
    In commandName (supportedCommands info) ->
    getProperty (mappedType info) commandName = Some methodSymbol ->
    declarations methodSymbol <> None
    /\ forall d signature,
         declarations methodSymbol = Some [PropertySignature d] ->
         getCallSignatures
           (getTypeFromTypeNode (getTypeChecker (program info)) (prop_type d))
         = Some [signature] ->
         Forall (fun parameterSymbol => declarations parameterSymbol <> None)
                (sig_parameters signature).

End ComponentCommandParser.

(** The same program and type, asked for other command names. *)
Definition withCommands (info : ExportCommandInfo) (names : list string)
    : ExportCommandInfo :=
  {| program := program info; typeNode := typeNode info; supportedCommands := names |}.

(** ** Sample programs *)

(** A checker given by a table from the text of a type node to its
    type; anything else, and an absent node, is the error type. *)
Definition errorType : tsType := mkType 1 None (fun _ => None) (Some []).

Fixpoint lookupType (table : list (string * tsType)) (text : string) : option tsType :=
  match table with
  | [] => None
  | (key, t) :: rest => if String.eqb key text then Some t else lookupType rest text
  end.

Definition tableChecker (table : list (string * tsType)) : TypeChecker :=
  {| getTypeFromTypeNode := fun node =>
       match node with
       | Some n => match lookupType table (getText n) with
                   | Some t => t
                   | None => errorType
                   end
       | None => errorType
       end |}.

(** Predicates in the style of the compiler's [TypeFlags]: [Void] is
    16384, [String] 4, [Boolean] 16; [Int32] is the alias of that name. *)
Definition flagCategories : TypeCategories :=
  {| isBoolean := fun t => N.eqb (flags t) 16;
     isInt32 := fun t => match aliasSymbol t with
                         | Some a => String.eqb a "Int32"
                         | None => false
                         end;
     isString := fun t => N.eqb (flags t) 4;
     isVoid := fun t => N.eqb (flags t) 16384 |}.

Definition voidType : tsType := mkType 16384 None (fun _ => None) (Some []).
Definition stringType : tsType := mkType 4 None (fun _ => None) (Some []).
Definition booleanType : tsType := mkType 16 None (fun _ => None) (Some []).
Definition numberType : tsType := mkType 8 None (fun _ => None) (Some []).
Definition int32Type : tsType := mkType 8 (Some "Int32") (fun _ => None) (Some []).

Definition objectType (members : list Symbol) : tsType :=
  mkType 524288 None
         (fun n => find (fun s => String.eqb (symbol_name s) n) members)
         (Some []).

Definition functionType (signatures : list Signature) : tsType :=
  mkType 524288 None (fun _ => None) (Some signatures).

Definition voidNode : Node := OtherNode "void".
Definition stringNode : Node := OtherNode "string".
Definition booleanNode : Node := OtherNode "boolean".
Definition numberNode : Node := OtherNode "number".
Definition int32Node : Node := TypeReferenceNode "Int32" None "Int32".
Definition commandsNode : Node := TypeReferenceNode "MyViewCommands" None "MyViewCommands".

(** [Ref<'MyView'>] as the compiler parses it: a type reference whose
    one type argument is the literal type ['MyView']. *)
Definition refNode : Node :=
  TypeReferenceNode "Ref" (Some [LiteralTypeNode (StringLiteral "'MyView'")])
                    "Ref<'MyView'>".

Definition sampleInfo (members : list Symbol) (extra : list (string * tsType))
    (names : list string) : ExportCommandInfo :=
  {| program :=
       {| getTypeChecker :=
            tableChecker (("MyViewCommands", objectType members)
                            :: ("void", voidType) :: ("string", stringType)
                            :: ("boolean", booleanType) :: ("number", numberType)
                            :: ("Int32", int32Type) :: extra) |};
     typeNode := commandsNode;
     supportedCommands := names |}.

Definition method (ps : list ParameterDeclaration) (ret : option Node) : SignatureDeclaration :=
  {| typeParameters := None; parameters := ps; type := ret; questionToken := None |}.

Definition viewRef : ParameterDeclaration :=
  {| param_name := "viewRef"; param_type := Some refNode |}.

(** [focus(viewRef: Ref<'MyView'>, durationMs: Int32): void] *)
Definition focusDecl : Declaration :=
  MethodSignature
    (method [viewRef; {| param_name := "durationMs"; param_type := Some int32Node |}]
            (Some voidNode)).

Definition focusCommand : CommandTypeShape :=
  {| name := "focus";
     optional := false;
     typeAnnotation :=
       {| fta_type := "FunctionTypeAnnotation";
          params := [{| pa_name := "durationMs";
                        pa_typeAnnotation := Int32TypeAnnotation |}] |} |}.

Definition focusInfo : ExportCommandInfo :=
  sampleInfo [{| symbol_name := "focus"; declarations := Some [focusDecl] |}] [] ["focus"].

Definition focusSymbol (decls : list Declaration) : Symbol :=
  {| symbol_name := "focus"; declarations := Some decls |}.

(** A commands type whose only member is [focus], requested alone. *)
Definition focusOnly (decls : list Declaration) : ExportCommandInfo :=
  sampleInfo [focusSymbol decls] [] ["focus"].

(** [setColor: (ref: Ref<'MyView'>, color: string, animated: boolean) => void] *)
Definition setColorTypeNode : Node :=
  OtherNode "(ref: Ref<'MyView'>, color: string, animated: boolean) => void".

Definition parameterSymbol (p : ParameterDeclaration) : Symbol :=
  {| symbol_name := param_name p; declarations := Some [ParameterNode p] |}.

Definition setColorParameters : list ParameterDeclaration :=
  [ {| param_name := "ref"; param_type := Some refNode |};
    {| param_name := "color"; param_type := Some stringNode |};
    {| param_name := "animated"; param_type := Some booleanNode |} ].

Definition setColorSignature (tps : option (list string)) : Signature :=
  mkSignature tps (map parameterSymbol setColorParameters) voidType.

Definition setColorDecl : PropertySignatureDeclaration :=
  {| prop_type := Some setColorTypeNode; prop_questionToken := None |}.

Definition setColorSymbol : Symbol :=
  {| symbol_name := "setColor"; declarations := Some [PropertySignature setColorDecl] |}.

Definition setColorCommand : CommandTypeShape :=
  {| name := "setColor";
     optional := false;
     typeAnnotation :=
       {| fta_type := "FunctionTypeAnnotation";
          params := [{| pa_name := "color"; pa_typeAnnotation := StringTypeAnnotation |};
                     {| pa_name := "animated"; pa_typeAnnotation := BooleanTypeAnnotation |}] |} |}.

(** A commands type with [setColor] alone, its property type having the
    given call signatures. *)
Definition setColorOnly (signatures : list Signature) : ExportCommandInfo :=
  sampleInfo [setColorSymbol] [(getText setColorTypeNode, functionType signatures)]
             ["setColor"].

Definition twoCommandsInfo : ExportCommandInfo :=
  sampleInfo [focusSymbol [focusDecl]; setColorSymbol]
             [(getText setColorTypeNode, functionType [setColorSignature None])]
             ["focus"; "setColor"].

(** [blur] is requested but not declared. *)
Definition missingInfo : ExportCommandInfo :=
  sampleInfo [focusSymbol [focusDecl]] [] ["focus"; "blur"].

(** [focus(viewRef: Ref<'MyView'>, durationMs: Int32, items: string[]): void] *)
Definition itemsParameter : ParameterDeclaration :=
  {| param_name := "items"; param_type := Some (OtherNode "string[]") |}.

Definition unsupportedDecl : Declaration :=
  MethodSignature
    (method [viewRef; {| param_name := "durationMs"; param_type := Some int32Node |};
             itemsParameter]
            (Some voidNode)).

(** [focus(viewRef: number): void] *)
Definition numberRefDecl : Declaration :=
  MethodSignature
    (method [{| param_name := "viewRef"; param_type := Some numberNode |}] (Some voidNode)).

(** [focus<T>(viewRef: Ref<'MyView'>): void] *)
Definition genericDecl : SignatureDeclaration :=
  {| typeParameters := Some ["T"]; parameters := [viewRef];
     type := Some voidNode; questionToken := None |}.

(** [focus(viewRef: Ref<'MyView'>): number] and the same without a
    return type. *)
Definition numberReturnDecl : Declaration :=
  MethodSignature (method [viewRef] (Some numberNode)).

Definition noReturnDecl : SignatureDeclaration := method [viewRef] None.

(** [focus?(viewRef: Ref<'MyView'>): void] *)
Definition optionalDecl : Declaration :=
  MethodSignature
    {| typeParameters := None; parameters := [viewRef];
       type := Some voidNode; questionToken := Some questionMark |}.

(** [focus(viewRef): void] and
    [focus(viewRef: Ref<'MyView'>, durationMs): void] *)
Definition unannotatedFirstDecl : Declaration :=
  MethodSignature
    (method [{| param_name := "viewRef"; param_type := None |}] (Some voidNode)).

Definition unannotatedLaterDecl : Declaration :=
  MethodSignature
    (method [viewRef; {| param_name := "durationMs"; param_type := None |}]
            (Some voidNode)).

(** [Ref<'MyView'>] with the string-literal token itself as the type
    argument, a tree the compiler's parser does not build. *)
Definition bareLiteralRefNode : Node :=
  TypeReferenceNode "Ref" (Some [StringLiteral "'MyView'"]) "Ref<'MyView'>".

Definition bareLiteralDecl : Declaration :=
  MethodSignature
    (method [{| param_name := "viewRef"; param_type := Some bareLiteralRefNode |}]
            (Some voidNode)).

(** [setColor]'s call signature with a second parameter symbol whose one
    declaration is not a parameter. *)
Definition malformedSignature : Signature :=
  mkSignature None
    [parameterSymbol {| param_name := "ref"; param_type := Some refNode |};
     {| symbol_name := "color"; declarations := Some [OtherDeclaration] |}]
    voidType.

(** The same with a second parameter symbol that has no [declarations],
    as the parameters of a signature merged from a union have. *)
Definition syntheticSignature : Signature :=
  mkSignature None
    [parameterSymbol {| param_name := "ref"; param_type := Some refNode |};
     {| symbol_name := "color"; declarations := None |}]
    voidType.

(** A commands type whose member [focus] has no [declarations], as the
    members of a mapped type have. *)
Definition syntheticMemberInfo : ExportCommandInfo :=
  sampleInfo [{| symbol_name := "focus"; declarations := None |}] [] ["focus"].

(** [focus] declared in full, then [setColor] whose call signature has a
    parameter symbol without [declarations]. *)
Definition syntheticParameterInfo : ExportCommandInfo :=
  sampleInfo [focusSymbol [focusDecl]; setColorSymbol]
             [(getText setColorTypeNode, functionType [syntheticSignature])]
             ["focus"; "setColor"].

(** [focus?(viewRef: Ref<'MyView'>): void] beside the property
    [setColor], which has no [?]. *)
Definition optionalAndPlainInfo : ExportCommandInfo :=
  sampleInfo [focusSymbol [optionalDecl]; setColorSymbol]
             [(getText setColorTypeNode, functionType [setColorSignature None])]
             ["focus"; "setColor"].

Definition optionalFocusCommand : CommandTypeShape :=
  {| name := "focus"; optional := true;
     typeAnnotation := {| fta_type := "FunctionTypeAnnotation"; params := [] |} |}.

(** [focus(viewRef: React.Ref<number>, durationMs: Int32): void] *)
Definition reactRefNumberNode : Node :=
  TypeReferenceNode "React.Ref" (Some [OtherNode "number"]) "React.Ref<number>".

Definition noParameterDecl : Declaration :=
  MethodSignature (method [] (Some voidNode)).

(** A checker for which two nodes with the text [MyViewCommands] are two
    types: the reference is the type with [focus] alone, the other node
    a type that declares [setColor] as well. *)
Definition scopedChecker : TypeChecker :=
  {| getTypeFromTypeNode := fun node =>
       match node with
       | Some (OtherNode text) =>
           if String.eqb text "MyViewCommands"
           then objectType [focusSymbol [focusDecl]; setColorSymbol]
           else getTypeFromTypeNode (getTypeChecker (program focusInfo)) node
       | _ => getTypeFromTypeNode (getTypeChecker (program focusInfo)) node
       end |}.

Definition scopedInfo (node : Node) : ExportCommandInfo :=
  {| program := {| getTypeChecker := scopedChecker |};
     typeNode := node;
     supportedCommands := ["focus"] |}.

Example synthetic_member_faults :
  parseCommands (categories := flagCategories) syntheticMemberInfo
  = Throw (TypeError "length").
Proof. reflexivity. Qed.

Example synthetic_parameter_faults :
  parseCommands (categories := flagCategories) syntheticParameterInfo
  = Throw (TypeError "length").
Proof. reflexivity. Qed.

Example focus_runs :
  parseCommands (categories := flagCategories) focusInfo = Return [focusCommand].
Proof. reflexivity. Qed.

Example setColor_runs :
  parseCommands (categories := flagCategories) twoCommandsInfo
  = Return [focusCommand; setColorCommand].
Proof. reflexivity. Qed.

Example missing_command_throws :
  parseCommands (categories := flagCategories) missingInfo
  = Throw (Error "Unable to find command blur in type MyViewCommands.").
Proof. reflexivity. Qed.

Example overloaded_method_throws :
  parseCommands (categories := flagCategories) (focusOnly [focusDecl; focusDecl])
  = Throw (Error "Command focus in type MyViewCommands should be a function.").
Proof. reflexivity. Qed.

Example unsupported_parameter_throws :
  parseCommands (categories := flagCategories) (focusOnly [unsupportedDecl])
  = Throw (Error "Parameter items in command focus in type MyViewCommands should be either string, boolean or Int32, instead of string[].").
Proof. reflexivity. Qed.

Example no_parameter_throws :
  parseCommands (categories := flagCategories)
                (focusOnly [MethodSignature (method [] (Some voidNode))])
  = Throw (Error "Command focus in type MyViewCommands should have at least one parameter.").
Proof. reflexivity. Qed.

Example optional_method_runs :
  parseCommands (categories := flagCategories) (focusOnly [optionalDecl])
  = Return [{| name := "focus"; optional := true;
               typeAnnotation := {| fta_type := "FunctionTypeAnnotation";
                                    params := [] |} |}].
Proof. reflexivity. Qed.

Example bare_literal_argument_throws :
  parseCommands (categories := flagCategories) (focusOnly [bareLiteralDecl])
  = Throw (Error "The first parameter in command focus in type MyViewCommands should be React.Ref<'NAME'>.").
Proof. reflexivity. Qed.

(** ** Properties *)

Section Properties.

Context {categories : TypeCategories}.

(** *** Sequencing and [map] *)

Lemma bind_Return_inv {A B : Type} (r : Result A) (k : A -> Result B) (b : B) :
  bind r k = Return b -> exists a, r = Return a /\ k a = Return b.
Proof.
  destruct r as [a | e]; simpl; intros H.
  - exists a. split; [reflexivity | exact H].
  - discriminate H.
Qed.

Lemma bind_Throw_inv {A B : Type} (r : Result A) (k : A -> Result B) (e : Exception) :
  bind r k = Throw e ->
  r = Throw e \/ exists a, r = Return a /\ k a = Throw e.
Proof.
  destruct r as [a | e']; simpl; intros H.
  - right. exists a. split; [reflexivity | exact H].
  - left. injection H as ->. reflexivity.
Qed.

Lemma mapE_Return_Forall2 {A B : Type} (f : A -> Result B) (l : list A) (ys : list B) :
  mapE f l = Return ys <-> Forall2 (fun x y => f x = Return y) l ys.
Proof.
  revert ys. induction l as [| x xs IH]; intros ys; simpl.
  - split.
    + intros H. injection H as <-. constructor.
    + intros H. inversion H. reflexivity.
  - split.
    + intros H.
      apply bind_Return_inv in H as (y & Hy & H).
      apply bind_Return_inv in H as (ys' & Hys & H).
      injection H as <-.
      constructor; [exact Hy | apply IH; exact Hys].
    + intros H. inversion H as [| x' y xs' ys' Hy Hys]; subst.
      rewrite Hy. simpl.
      apply IH in Hys. rewrite Hys. reflexivity.
Qed.

Lemma mapE_all_Return {A B : Type} (f : A -> Result B) (l : list A) :
  Forall (fun x => exists y, f x = Return y) l -> exists ys, mapE f l = Return ys.
Proof.
  induction 1 as [| x xs (y & Hy) _ (ys & Hys)]; simpl.
  - exists []. reflexivity.
  - exists (y :: ys). rewrite Hy. simpl. rewrite Hys. reflexivity.
Qed.

Lemma mapE_first_Throw {A B : Type} (f : A -> Result B)
    (before : list A) (x : A) (after : list A) (e : Exception) :
  Forall (fun x => exists y, f x = Return y) before ->
  f x = Throw e ->
  mapE f (before ++ x :: after) = Throw e.
Proof.
  intros Hbefore Hx.
  induction Hbefore as [| b bs (y & Hy) _ IH]; simpl.
  - rewrite Hx. reflexivity.
  - rewrite Hy. simpl. rewrite IH. reflexivity.
Qed.

Lemma mapE_Throw_inv {A B : Type} (f : A -> Result B) (l : list A) (e : Exception) :
  mapE f l = Throw e ->
  exists before x after,
    l = before ++ x :: after
    /\ Forall (fun x => exists y, f x = Return y) before
    /\ f x = Throw e.
Proof.
  induction l as [| x xs IH]; simpl; intros H.
  - discriminate H.
  - destruct (f x) as [y | e'] eqn:Hx; simpl in H.
    + destruct (mapE f xs) as [ys | e''] eqn:Hxs; simpl in H; [discriminate H |].
      injection H as ->.
      destruct (IH eq_refl) as (before & x' & after & -> & Hbefore & Hx').
      exists (x :: before), x', after.
      split; [reflexivity |].
      split; [| exact Hx'].
      constructor; [exists y; exact Hx | exact Hbefore].
    + injection H as ->.
      exists [], x, xs. repeat split; [constructor | exact Hx].
Qed.

Lemma mapE_length {A B : Type} (f : A -> Result B) (l : list A) (ys : list B) :
  mapE f l = Return ys -> List.length ys = List.length l.
Proof.
  intros H. apply mapE_Return_Forall2 in H.
  induction H; simpl; congruence.
Qed.

(** *** The loop is a [map] that may throw *)

Lemma forOf_mapE (info : ExportCommandInfo) (names : list string)
    (commands : list CommandTypeShape) :
  forOf info names commands =
  (cs <- mapE (parseCommand info) names ;; Return (commands ++ cs)).
Proof.
  revert commands. induction names as [| n ns IH]; intros commands; simpl.
  - rewrite app_nil_r. reflexivity.
  - destruct (parseCommand info n) as [c | e]; simpl; [| reflexivity].
    rewrite IH.
    destruct (mapE (parseCommand info) ns) as [cs | e]; simpl; [| reflexivity].
    rewrite <- app_assoc. reflexivity.
Qed.

Lemma parseCommands_mapE (info : ExportCommandInfo) :
  parseCommands info = mapE (parseCommand info) (supportedCommands info).
Proof.
  unfold parseCommands. rewrite forOf_mapE.
  destruct (mapE (parseCommand info) (supportedCommands info)); reflexivity.
Qed.

Lemma parseCommands_reaches_Throw (info : ExportCommandInfo)
    (commandName : string) (e : Exception) :
  reaches info commandName ->
  parseCommand info commandName = Throw e ->
  parseCommands info = Throw e.
Proof.
  intros (before & after & Hnames & Hbefore) He.
  rewrite parseCommands_mapE, Hnames.
  apply mapE_first_Throw; assumption.
Qed.

(** *** One turn of the loop *)

Lemma parseCommand_found (info : ExportCommandInfo) (commandName : string)
    (methodSymbol : Symbol) :
  getProperty (mappedType info) commandName = Some methodSymbol ->
  parseCommand info commandName =
  (resolved <- resolveSignature (getTypeChecker (program info)) commandName
                 (getText (typeNode info)) methodSymbol ;;
   match resolved with
   | None => Throw (Error (msgNotAFunction commandName (getText (typeNode info))))
   | Some rs => validateSignature (getTypeChecker (program info)) commandName
                  (getText (typeNode info)) rs
   end).
Proof.
  intros H. unfold parseCommand. rewrite H. reflexivity.
Qed.

Lemma parseCommand_resolved (info : ExportCommandInfo) (commandName : string)
    (rs : ResolvedSignature) :
  resolvesTo info commandName rs ->
  parseCommand info commandName =
  validateSignature (getTypeChecker (program info)) commandName
    (getText (typeNode info)) rs.
Proof.
  intros (s & Hs & Hrs).
  rewrite (parseCommand_found _ _ _ Hs), Hrs. reflexivity.
Qed.

Lemma parseCommand_Return_inv (info : ExportCommandInfo) (commandName : string)
    (c : CommandTypeShape) :
  parseCommand info commandName = Return c ->
  exists rs,
    resolvesTo info commandName rs
    /\ validateSignature (getTypeChecker (program info)) commandName
         (getText (typeNode info)) rs = Return c.
Proof.
  unfold parseCommand, resolvesTo.
  destruct (getProperty (mappedType info) commandName) as [s |]; [| discriminate].
  intros H. apply bind_Return_inv in H as ([rs |] & Hrs & H); [| discriminate H].
  exists rs. split; [| exact H].
  exists s. split; [reflexivity | exact Hrs].
Qed.

Lemma validateSignature_Return_inv (tc : TypeChecker) (commandName typeText : string)
    (rs : ResolvedSignature) (c : CommandTypeShape) :
  validateSignature tc commandName typeText rs = Return c ->
  exists first rest viewRefType ps,
    isVoid (funcReturnType rs) = true
    /\ funcParameters rs = first :: rest
    /\ param_type first = Some viewRefType
    /\ refShapeRejected viewRefType = false
    /\ mapE (parseParam tc commandName typeText) rest = Return ps
    /\ c = {| name := commandName;
              optional := isDefined (declQuestionToken (funcDecl rs));
              typeAnnotation := {| fta_type := "FunctionTypeAnnotation";
                                   params := ps |} |}.
Proof.
  unfold validateSignature.
  destruct (isVoid (funcReturnType rs)) eqn:Hvoid; simpl; [| discriminate].
  destruct (funcParameters rs) as [| first rest] eqn:Hps; [discriminate |].
  destruct (param_type first) as [v |] eqn:Hfirst; [| discriminate].
  destruct (refShapeRejected v) eqn:Hv; [discriminate |].
  intros H. apply bind_Return_inv in H as (ps & Hmap & H).
  injection H as <-.
  exists first, rest, v, ps. repeat split; assumption.
Qed.

Lemma parseCommand_name (info : ExportCommandInfo) (commandName : string)
    (c : CommandTypeShape) :
  parseCommand info commandName = Return c -> name c = commandName.
Proof.
  intros H. apply parseCommand_Return_inv in H as (rs & _ & H).
  apply validateSignature_Return_inv in H
    as (first & rest & v & ps & _ & _ & _ & _ & _ & ->).
  reflexivity.
Qed.

Lemma parseCommand_names (info : ExportCommandInfo) (names : list string)
    (cs : list CommandTypeShape) :
  Forall2 (fun n c => parseCommand info n = Return c) names cs ->
  map name cs = names.
Proof.
  induction 1 as [| n c ns cs' Hc _ IH]; simpl.
  - reflexivity.
  - rewrite (parseCommand_name _ _ _ Hc), IH. reflexivity.
Qed.

Lemma Forall2_Return_not_Exists_Throw {A B : Type} (f : A -> Result B)
    (l : list A) (ys : list B) :
  Forall2 (fun x y => f x = Return y) l ys ->
  Exists (fun x => exists e, f x = Throw e) l ->
  False.
Proof.
  induction 1 as [| x y xs ys' Hy _ IH]; intros Hsome.
  - inversion Hsome.
  - inversion Hsome as [? ? (e & He) | ? ? Hrest]; subst.
    + rewrite Hy in He. discriminate He.
    + exact (IH Hrest).
Qed.

Lemma resolveSignature_not_single (tc : TypeChecker) (commandName typeText : string)
    (methodSymbol : Symbol) (sites : list Declaration) :
  declarations methodSymbol = Some sites ->
  List.length sites <> 1 ->
  resolveSignature tc commandName typeText methodSymbol = Return None.
Proof.
  unfold resolveSignature. intros ->.
  destruct sites as [| decl [| decl' ds]]; simpl; intros H.
  - reflexivity.
  - contradiction H. reflexivity.
  - reflexivity.
Qed.

Lemma resolveSignature_funcDecl (tc : TypeChecker) (commandName typeText : string)
    (methodSymbol : Symbol) (rs : ResolvedSignature) :
  resolveSignature tc commandName typeText methodSymbol = Return (Some rs) ->
  declarations methodSymbol = Some [funcDecl rs].
Proof.
  unfold resolveSignature.
  destruct (declarations methodSymbol) as [[| decl [| decl' ds]] |]; try discriminate.
  destruct decl as [d | d | d | d |]; try discriminate.
  - destruct (declaresTypeParameters (typeParameters d)); [discriminate |].
    intros H. injection H as <-. reflexivity.
  - destruct (declaresTypeParameters (typeParameters d)); [discriminate |].
    intros H. injection H as <-. reflexivity.
  - destruct (getCallSignatures _) as [[| signature [| s' sigs]] |]; try discriminate.
    destruct (declaresTypeParameters (sig_typeParameters signature)); [discriminate |].
    intros H. apply bind_Return_inv in H as (ps & _ & H).
    injection H as <-. reflexivity.
Qed.

(** *** The first parameter *)

Lemma refShapeRejected_not_reference (viewRefType : Node) :
  isTypeReferenceNode viewRefType = false -> refShapeRejected viewRefType = true.
Proof.
  destruct viewRefType; simpl; intros H; [discriminate H | | |]; reflexivity.
Qed.

(** A reference named [React.Ref] passes whatever its arguments. *)
Lemma refShapeRejected_React_Ref (typeArguments : option (list Node)) (text : string) :
  refShapeRejected (TypeReferenceNode "React.Ref" typeArguments text) = false.
Proof. reflexivity. Qed.

(** So does any reference whose arguments are type nodes: no type
    node has kind [SyntaxKind.StringLiteral]. *)
Lemma refShapeRejected_type_arguments (typeName : string) (args : list Node)
    (text : string) :
  Forall (fun arg => isStringLiteral arg = false) args ->
  refShapeRejected (TypeReferenceNode typeName (Some args) text) = false.
Proof.
  intros Hargs. simpl.
  destruct args as [| arg rest]; simpl.
  - apply andb_false_r.
  - inversion Hargs as [| ? ? Harg _]; subst. rewrite Harg.
    rewrite !andb_false_r. reflexivity.
Qed.

Lemma refShapeRejected_no_arguments (typeName text : string) :
  refShapeRejected (TypeReferenceNode typeName None text) = false.
Proof. simpl. apply andb_false_r. Qed.

(** The second disjunct of line 61 fires only on a reference, not
    named [React.Ref], whose one argument is a bare string-literal
    token. *)
Lemma refShapeRejected_reference (typeName : string) (typeArguments : option (list Node))
    (text : string) :
  refShapeRejected (TypeReferenceNode typeName typeArguments text) = true <->
  typeName <> "React.Ref"
  /\ exists literal, typeArguments = Some [StringLiteral literal].
Proof.
  simpl. split.
  - intros H. apply andb_true_iff in H as [Hname H].
    split.
    + intros ->. discriminate Hname.
    + destruct typeArguments as [[| arg [| arg' rest]] |]; simpl in H; try discriminate H.
      destruct arg; try discriminate H. eexists. reflexivity.
  - intros [Hname [literal ->]]. simpl.
    apply String.eqb_neq in Hname. rewrite Hname. reflexivity.
Qed.

(** *** Claims *)

(** C1. Requesting the single command [focus] on a type that declares
    [focus(viewRef: Ref<'MyView'>, durationMs: Int32): void] returns
    exactly one command: name [focus], not optional, one parameter
    [durationMs] of kind Int32.  The first-parameter check lets
    [Ref<'MyView'>] through and the ref parameter is not emitted.
    ([void] is taken to be void, and [Int32] to be an Int32 that is
    neither string nor boolean, for the imported predicates.) *)
Theorem parseCommands_focus (info : ExportCommandInfo) (methodSymbol : Symbol) :
  supportedCommands info = ["focus"] ->
  getProperty (mappedType info) "focus" = Some methodSymbol ->
  declarations methodSymbol = Some [focusDecl] ->
  isVoid (getTypeFromTypeNode (getTypeChecker (program info)) (Some voidNode)) = true ->
  isString (getTypeFromTypeNode (getTypeChecker (program info)) (Some int32Node)) = false ->
  isBoolean (getTypeFromTypeNode (getTypeChecker (program info)) (Some int32Node)) = false ->
  isInt32 (getTypeFromTypeNode (getTypeChecker (program info)) (Some int32Node)) = true ->
  parseCommands info = Return [focusCommand].
Proof.
  intros Hnames Hsym Hdecl Hvoid Hstr Hbool Hint.
  unfold parseCommands. rewrite Hnames. simpl.
  rewrite (parseCommand_found _ _ _ Hsym).
  unfold resolveSignature. rewrite Hdecl. simpl.
  unfold validateSignature. simpl. rewrite Hvoid. simpl.
  unfold parseParam, classify. simpl. rewrite Hstr, Hbool, Hint. simpl.
  reflexivity.
Qed.

(** C2. When every requested name validates, [parseCommands] returns
    one command per requested name, in the order of the request and
    as many as were requested; when some requested name fails at any
    stage, the call throws (the exception of the first name that
    fails) and returns no sequence at all. *)
Theorem parseCommands_all_or_nothing (info : ExportCommandInfo) :
  (Forall (fun n => exists c, parseCommand info n = Return c) (supportedCommands info) ->
   exists cs,
     parseCommands info = Return cs
     /\ List.length cs = List.length (supportedCommands info)
     /\ map name cs = supportedCommands info
     /\ Forall2 (fun n c => parseCommand info n = Return c) (supportedCommands info) cs)
  /\ (Exists (fun n => exists e, parseCommand info n = Throw e) (supportedCommands info) ->
      exists commandName e,
        reaches info commandName
        /\ parseCommand info commandName = Throw e
        /\ parseCommands info = Throw e
        /\ forall cs, parseCommands info <> Return cs).
Proof.
  split.
  - intros Hall.
    destruct (mapE_all_Return _ _ Hall) as (cs & Hcs).
    exists cs. rewrite parseCommands_mapE.
    split; [exact Hcs |].
    split; [apply (mapE_length _ _ _ Hcs) |].
    apply mapE_Return_Forall2 in Hcs.
    split; [apply (parseCommand_names _ _ _ Hcs) | exact Hcs].
  - intros Hsome.
    destruct (mapE (parseCommand info) (supportedCommands info)) as [cs | e] eqn:Hmap.
    + exfalso. apply mapE_Return_Forall2 in Hmap.
      exact (Forall2_Return_not_Exists_Throw _ _ _ Hmap Hsome).
    + destruct (mapE_Throw_inv _ _ _ Hmap) as (before & n & after & Hnames & Hbefore & Hn).
      exists n, e.
      split; [exists before, after; split; assumption |].
      split; [exact Hn |].
      rewrite parseCommands_mapE, Hmap.
      split; [reflexivity | discriminate].
Qed.

(** C3, as amended. A requested command whose member symbol lists its
    declaration sites, and lists none or more than one, is not
    disambiguated: extraction throws the generic error "Command ... in
    type ... should be a function."  (A symbol without [declarations]
    is not covered.) *)
Theorem not_single_declaration_not_a_function (info : ExportCommandInfo)
    (commandName : string) (methodSymbol : Symbol) (sites : list Declaration) :
  reaches info commandName ->
  getProperty (mappedType info) commandName = Some methodSymbol ->
  declarations methodSymbol = Some sites ->
  List.length sites <> 1 ->
  parseCommands info =
  Throw (Error ("Command " ++ commandName ++ " in type " ++ getText (typeNode info)
                  ++ " should be a function.")).
Proof.
  intros Hreach Hsym Hsites Hlen.
  apply (parseCommands_reaches_Throw _ _ _ Hreach).
  rewrite (parseCommand_found _ _ _ Hsym).
  rewrite (resolveSignature_not_single _ _ _ _ _ Hsites Hlen). reflexivity.
Qed.

(** *** The remaining parameters *)

Lemma classify_Some (paramType : tsType) (k : CommandsTypeAnnotation) :
  classify paramType = Some k ->
  match k with
  | StringTypeAnnotation => isString paramType = true
  | BooleanTypeAnnotation => isString paramType = false /\ isBoolean paramType = true
  | Int32TypeAnnotation =>
      isString paramType = false /\ isBoolean paramType = false
      /\ isInt32 paramType = true
  end.
Proof.
  unfold classify.
  destruct (isString paramType); [intros H; injection H as <-; reflexivity |].
  destruct (isBoolean paramType); [intros H; injection H as <-; split; reflexivity |].
  destruct (isInt32 paramType); [intros H; injection H as <-; repeat split |].
  discriminate.
Qed.

Lemma classify_None (paramType : tsType) :
  classify paramType = None <->
  isString paramType = false /\ isBoolean paramType = false /\ isInt32 paramType = false.
Proof.
  unfold classify.
  destruct (isString paramType), (isBoolean paramType), (isInt32 paramType);
    split; try discriminate; try (intros (? & ? & ?); discriminate);
    repeat split.
Qed.

Lemma classify_supported (paramType : tsType) :
  isString paramType || isBoolean paramType || isInt32 paramType = true ->
  exists k, classify paramType = Some k.
Proof.
  unfold classify.
  destruct (isString paramType), (isBoolean paramType), (isInt32 paramType);
    simpl; intros H; try discriminate H; eexists; reflexivity.
Qed.

Lemma parseParam_Return_inv (tc : TypeChecker) (commandName typeText : string)
    (param : ParameterDeclaration) (a : CommandsFunctionTypeParamAnnotation) :
  parseParam tc commandName typeText param = Return a ->
  pa_name a = param_name param
  /\ classify (getTypeFromTypeNode tc (param_type param)) = Some (pa_typeAnnotation a).
Proof.
  unfold parseParam.
  destruct (classify _) as [k |].
  - intros H. injection H as <-. split; reflexivity.
  - destruct (param_type param); discriminate.
Qed.

Lemma validateSignature_parameters (tc : TypeChecker) (commandName typeText : string)
    (rs : ResolvedSignature) (first : ParameterDeclaration)
    (rest : list ParameterDeclaration) (viewRefType : Node) :
  isVoid (funcReturnType rs) = true ->
  funcParameters rs = first :: rest ->
  param_type first = Some viewRefType ->
  validateSignature tc commandName typeText rs =
  if refShapeRejected viewRefType
  then Throw (Error (msgNotRef commandName typeText))
  else
    ps <- mapE (parseParam tc commandName typeText) rest ;;
    Return {| name := commandName;
              optional := isDefined (declQuestionToken (funcDecl rs));
              typeAnnotation := {| fta_type := "FunctionTypeAnnotation";
                                   params := ps |} |}.
Proof.
  intros Hvoid Hps Hfirst. unfold validateSignature.
  rewrite Hvoid, Hps, Hfirst. reflexivity.
Qed.

(** C4, as amended. The parameters after the first are classified
    string first, then boolean, then Int32; the emitted list follows the
    declaration order and carries the identifier text of each
    parameter.  The first parameter whose type is in none of the three
    categories, when it has a declared type, makes the whole call throw
    "Parameter ... in command ... in type ... should be either string,
    boolean or Int32, instead of ...", with the parameter's name, the
    command, the text of the type and the text of the declared type.
    (A parameter without a declared type is not covered.) *)
Theorem parameters_classified_in_order (info : ExportCommandInfo) :
  (forall cs,
     parseCommands info = Return cs ->
     Forall2
       (fun commandName c =>
          exists rs first rest,
            resolvesTo info commandName rs
            /\ funcParameters rs = first :: rest
            /\ Forall2
                 (fun param a =>
                    pa_name a = param_name param
                    /\ match pa_typeAnnotation a with
                       | StringTypeAnnotation =>
                           isString (getTypeFromTypeNode (getTypeChecker (program info))
                                                         (param_type param)) = true
                       | BooleanTypeAnnotation =>
                           isString (getTypeFromTypeNode (getTypeChecker (program info))
                                                         (param_type param)) = false
                           /\ isBoolean (getTypeFromTypeNode (getTypeChecker (program info))
                                                             (param_type param)) = true
                       | Int32TypeAnnotation =>
                           isString (getTypeFromTypeNode (getTypeChecker (program info))
                                                         (param_type param)) = false
                           /\ isBoolean (getTypeFromTypeNode (getTypeChecker (program info))
                                                             (param_type param)) = false
                           /\ isInt32 (getTypeFromTypeNode (getTypeChecker (program info))
                                                           (param_type param)) = true
                       end)
                 rest (params (typeAnnotation c)))
       (supportedCommands info) cs)
  /\ (forall commandName rs first viewRefType before param after declared,
        reaches info commandName ->
        resolvesTo info commandName rs ->
        isVoid (funcReturnType rs) = true ->
        funcParameters rs = first :: before ++ param :: after ->
        param_type first = Some viewRefType ->
        refShapeRejected viewRefType = false ->
        Forall (fun q =>
                  isString (getTypeFromTypeNode (getTypeChecker (program info)) (param_type q))
                  || isBoolean (getTypeFromTypeNode (getTypeChecker (program info)) (param_type q))
                  || isInt32 (getTypeFromTypeNode (getTypeChecker (program info)) (param_type q))
                  = true) before ->
        isString (getTypeFromTypeNode (getTypeChecker (program info)) (param_type param)) = false ->
        isBoolean (getTypeFromTypeNode (getTypeChecker (program info)) (param_type param)) = false ->
        isInt32 (getTypeFromTypeNode (getTypeChecker (program info)) (param_type param)) = false ->
        param_type param = Some declared ->
        parseCommands info =
        Throw (Error ("Parameter " ++ param_name param ++ " in command " ++ commandName
                        ++ " in type " ++ getText (typeNode info)
                        ++ " should be either string, boolean or Int32, instead of "
                        ++ getText declared ++ "."))).
Proof.
  split.
  - intros cs Hcs. rewrite parseCommands_mapE in Hcs.
    apply mapE_Return_Forall2 in Hcs.
    eapply Forall2_impl; [| exact Hcs].
    intros n c Hc. simpl in Hc.
    apply parseCommand_Return_inv in Hc as (rs & Hrs & Hc).
    apply validateSignature_Return_inv in Hc
      as (first & rest & v & ps & _ & Hps & _ & _ & Hmap & ->).
    exists rs, first, rest. split; [exact Hrs |]. split; [exact Hps |].
    simpl. apply mapE_Return_Forall2 in Hmap.
    eapply Forall2_impl; [| exact Hmap].
    intros p a Hpa. simpl in Hpa.
    apply parseParam_Return_inv in Hpa as [Hname Hkind].
    split; [exact Hname |].
    apply classify_Some in Hkind. exact Hkind.
  - intros n rs first v before p after declared
      Hreach Hrs Hvoid Hps Hfirst Hv Hbefore Hstr Hbool Hint Hdeclared.
    apply (parseCommands_reaches_Throw _ _ _ Hreach).
    rewrite (parseCommand_resolved _ _ _ Hrs).
    rewrite (validateSignature_parameters _ _ _ _ _ _ _ Hvoid Hps Hfirst), Hv.
    rewrite (mapE_first_Throw _ before p after
               (Error (msgUnsupported (param_name p) n (getText (typeNode info))
                                      (getText declared)))).
    + reflexivity.
    + eapply Forall_impl; [| exact Hbefore].
      intros q Hq. simpl in Hq.
      destruct (classify_supported _ Hq) as (k & Hk).
      unfold parseParam. rewrite Hk. eexists. reflexivity.
    + unfold parseParam.
      rewrite (proj2 (classify_None _) (conj Hstr (conj Hbool Hint))), Hdeclared.
      reflexivity.
Qed.

(** C5. A command that passes member resolution, the return-type
    check and the arity check, and whose first parameter is declared
    with a type that is not a type-reference node, makes extraction
    throw "The first parameter ... should be React.Ref<'NAME'>." *)
Theorem first_parameter_not_a_reference (info : ExportCommandInfo)
    (commandName : string) (rs : ResolvedSignature)
    (first : ParameterDeclaration) (rest : list ParameterDeclaration)
    (viewRefType : Node) :
  reaches info commandName ->
  resolvesTo info commandName rs ->
  isVoid (funcReturnType rs) = true ->
  funcParameters rs = first :: rest ->
  param_type first = Some viewRefType ->
  isTypeReferenceNode viewRefType = false ->
  parseCommands info =
  Throw (Error (msgNotRef commandName (getText (typeNode info)))).
Proof.
  intros Hreach Hrs Hvoid Hps Hfirst Hkind.
  apply (parseCommands_reaches_Throw _ _ _ Hreach).
  rewrite (parseCommand_resolved _ _ _ Hrs).
  rewrite (validateSignature_parameters _ _ _ _ _ _ _ Hvoid Hps Hfirst).
  rewrite (refShapeRejected_not_reference _ Hkind). reflexivity.
Qed.

(** *** Member resolution *)

Lemma declaresTypeParameters_nonempty (tps : list string) :
  tps <> [] -> declaresTypeParameters (Some tps) = true.
Proof.
  destruct tps; simpl; [intros H; contradiction H |]; reflexivity.
Qed.

(** C6. Whichever way the command is declared, directly as a method
    or call signature or as a property whose type has one call
    signature, a non-empty list of type parameters on the callable
    makes extraction throw "Command ... should not be generic." *)
Theorem generic_command_rejected (info : ExportCommandInfo)
    (commandName : string) (methodSymbol : Symbol) (decl : Declaration) :
  reaches info commandName ->
  getProperty (mappedType info) commandName = Some methodSymbol ->
  declarations methodSymbol = Some [decl] ->
  (forall d tps,
     decl = MethodSignature d \/ decl = CallSignatureDeclaration d ->
     typeParameters d = Some tps ->
     tps <> [] ->
     parseCommands info =
     Throw (Error (msgGeneric commandName (getText (typeNode info)))))
  /\ (forall d signature tps,
        decl = PropertySignature d ->
        getCallSignatures (getTypeFromTypeNode (getTypeChecker (program info)) (prop_type d))
        = Some [signature] ->
        sig_typeParameters signature = Some tps ->
        tps <> [] ->
        parseCommands info =
        Throw (Error (msgGeneric commandName (getText (typeNode info))))).
Proof.
  intros Hreach Hsym Hdecl. split.
  - intros d tps Hshape Htps Hne.
    apply (parseCommands_reaches_Throw _ _ _ Hreach).
    rewrite (parseCommand_found _ _ _ Hsym).
    unfold resolveSignature. rewrite Hdecl.
    destruct Hshape as [-> | ->];
      rewrite Htps, (declaresTypeParameters_nonempty _ Hne); reflexivity.
  - intros d signature tps -> Hsigs Htps Hne.
    apply (parseCommands_reaches_Throw _ _ _ Hreach).
    rewrite (parseCommand_found _ _ _ Hsym).
    unfold resolveSignature. rewrite Hdecl. simpl. rewrite Hsigs.
    rewrite Htps, (declaresTypeParameters_nonempty _ Hne). reflexivity.
Qed.

(** C7. Once a signature is resolved, a return type that is not void
    makes extraction throw "Command ... should return void."  This
    includes a method declared without a return type, whose absent
    node the checker resolves to a type that is not void. *)
Theorem non_void_return_rejected (info : ExportCommandInfo) (commandName : string) :
  reaches info commandName ->
  (forall rs,
     resolvesTo info commandName rs ->
     isVoid (funcReturnType rs) = false ->
     parseCommands info =
     Throw (Error (msgNotVoid commandName (getText (typeNode info)))))
  /\ (forall methodSymbol d,
        getProperty (mappedType info) commandName = Some methodSymbol ->
        declarations methodSymbol = Some [MethodSignature d] ->
        declaresTypeParameters (typeParameters d) = false ->
        type d = None ->
        isVoid (getTypeFromTypeNode (getTypeChecker (program info)) None) = false ->
        parseCommands info =
        Throw (Error (msgNotVoid commandName (getText (typeNode info))))).
Proof.
  intros Hreach.
  assert (Hgeneral : forall rs,
             resolvesTo info commandName rs ->
             isVoid (funcReturnType rs) = false ->
             parseCommands info =
             Throw (Error (msgNotVoid commandName (getText (typeNode info))))).
  { intros rs Hrs Hvoid.
    apply (parseCommands_reaches_Throw _ _ _ Hreach).
    rewrite (parseCommand_resolved _ _ _ Hrs).
    unfold validateSignature. rewrite Hvoid. reflexivity. }
  split; [exact Hgeneral |].
  intros s d Hsym Hdecl Hgeneric Htype Hvoid.
  apply (Hgeneral {| funcDecl := MethodSignature d;
                     funcReturnType :=
                       getTypeFromTypeNode (getTypeChecker (program info)) None;
                     funcParameters := parameters d |}); [| exact Hvoid].
  exists s. split; [exact Hsym |].
  unfold resolveSignature. rewrite Hdecl, Hgeneric, Htype. reflexivity.
Qed.

(** C8. For a command whose single declaration is a property:
    resolution yields a signature only when the property's type has
    exactly one call signature, and then the return type and the
    parameters are that signature's; it does yield one when that
    signature is not generic and each of its parameters is declared
    once, as a parameter; and with no call signature or more than one
    extraction throws "Command ... should be a function." *)
Theorem property_needs_one_call_signature (info : ExportCommandInfo)
    (commandName : string) (methodSymbol : Symbol) (d : PropertySignatureDeclaration) :
  getProperty (mappedType info) commandName = Some methodSymbol ->
  declarations methodSymbol = Some [PropertySignature d] ->
  (forall rs,
     resolvesTo info commandName rs ->
     exists signature,
       getCallSignatures (getTypeFromTypeNode (getTypeChecker (program info)) (prop_type d))
       = Some [signature]
       /\ funcDecl rs = PropertySignature d
       /\ funcReturnType rs = getReturnType signature
       /\ Forall2 (fun parameterSymbol p =>
                     declarations parameterSymbol = Some [ParameterNode p])
                  (sig_parameters signature) (funcParameters rs))
  /\ (forall signature ps,
        getCallSignatures (getTypeFromTypeNode (getTypeChecker (program info)) (prop_type d))
        = Some [signature] ->
        declaresTypeParameters (sig_typeParameters signature) = false ->
        Forall2 (fun parameterSymbol p =>
                   declarations parameterSymbol = Some [ParameterNode p])
                (sig_parameters signature) ps ->
        resolvesTo info commandName
          {| funcDecl := PropertySignature d;
             funcReturnType := getReturnType signature;
             funcParameters := ps |})
  /\ (match getCallSignatures
              (getTypeFromTypeNode (getTypeChecker (program info)) (prop_type d)) with
      | Some signatures => List.length signatures <> 1
      | None => True
      end ->
      reaches info commandName ->
      parseCommands info =
      Throw (Error (msgNotAFunction commandName (getText (typeNode info))))).
Proof.
  intros Hsym Hdecl. split; [| split].
  - intros rs (s & Hs & Hrs).
    rewrite Hsym in Hs. injection Hs as <-.
    unfold resolveSignature in Hrs. rewrite Hdecl in Hrs. simpl in Hrs.
    destruct (getCallSignatures _) as [[| signature [| s' sigs]] |];
      try discriminate Hrs.
    destruct (declaresTypeParameters (sig_typeParameters signature));
      [discriminate Hrs |].
    apply bind_Return_inv in Hrs as (ps & Hps & Hrs).
    injection Hrs as <-.
    exists signature. repeat split.
    apply mapE_Return_Forall2 in Hps.
    eapply Forall2_impl; [| exact Hps].
    intros sym p Hp. simpl in Hp. unfold parameterOfSymbol in Hp.
    destruct (declarations sym) as [[| [| | | p' |] [| decl' ds]] |];
      try discriminate Hp.
    injection Hp as ->. reflexivity.
  - intros signature ps Hsigs Hgeneric Hps.
    exists methodSymbol. split; [exact Hsym |].
    unfold resolveSignature. rewrite Hdecl. simpl. rewrite Hsigs, Hgeneric.
    assert (Hmap : mapE (parameterOfSymbol commandName (getText (typeNode info)))
                        (sig_parameters signature) = Return ps).
    { apply mapE_Return_Forall2.
      eapply Forall2_impl; [| exact Hps].
      intros sym p Hp. simpl in Hp. unfold parameterOfSymbol. rewrite Hp. reflexivity. }
    rewrite Hmap. reflexivity.
  - intros Hsigs Hreach.
    apply (parseCommands_reaches_Throw _ _ _ Hreach).
    rewrite (parseCommand_found _ _ _ Hsym).
    unfold resolveSignature. rewrite Hdecl. simpl.
    destruct (getCallSignatures _) as [[| signature [| s' sigs]] |]; try reflexivity.
    contradiction Hsigs. reflexivity.
Qed.

(** C9. For every emitted command the member has one declaration, a
    method or call signature or a property signature, and the
    [optional] flag is [true] when that declaration carries the [?]
    marker and [false] when it carries none. *)
Theorem optional_follows_question_token (info : ExportCommandInfo)
    (cs : list CommandTypeShape) :
  parseCommands info = Return cs ->
  Forall2
    (fun commandName c =>
       exists methodSymbol decl,
         getProperty (mappedType info) commandName = Some methodSymbol
         /\ declarations methodSymbol = Some [decl]
         /\ ((exists d,
                 (decl = MethodSignature d \/ decl = CallSignatureDeclaration d)
                 /\ match questionToken d with
                    | Some _ => optional c = true
                    | None => optional c = false
                    end)
             \/ (exists d,
                    decl = PropertySignature d
                    /\ match prop_questionToken d with
                       | Some _ => optional c = true
                       | None => optional c = false
                       end)))
    (supportedCommands info) cs.
Proof.
  intros Hcs. rewrite parseCommands_mapE in Hcs.
  apply mapE_Return_Forall2 in Hcs.
  eapply Forall2_impl; [| exact Hcs].
  intros n c Hc. simpl in Hc.
  apply parseCommand_Return_inv in Hc as (rs & (s & Hs & Hrs) & Hc).
  apply validateSignature_Return_inv in Hc
    as (first & rest & v & ps & _ & _ & _ & _ & _ & ->).
  exists s, (funcDecl rs).
  split; [exact Hs |].
  pose proof (resolveSignature_funcDecl _ _ _ _ _ Hrs) as Hdecl.
  split; [exact Hdecl |].
  simpl.
  unfold resolveSignature in Hrs. rewrite Hdecl in Hrs.
  destruct (funcDecl rs) as [d | d | d | d |]; try discriminate Hrs.
  - left. exists d. split; [left; reflexivity |].
    simpl. destruct (questionToken d); reflexivity.
  - left. exists d. split; [right; reflexivity |].
    simpl. destruct (questionToken d); reflexivity.
  - right. exists d. split; [reflexivity |].
    simpl. destruct (prop_questionToken d); reflexivity.
Qed.

(** *** Which exceptions can come out *)

Lemma mapE_Throw_Documented {A B : Type} (f : A -> Result B) (l : list A)
    (e : Exception) :
  (forall x e', In x l -> f x = Throw e' -> Documented e') ->
  mapE f l = Throw e ->
  Documented e.
Proof.
  intros Hf H.
  apply mapE_Throw_inv in H as (before & x & after & -> & _ & Hx).
  apply (Hf x); [| exact Hx].
  apply in_or_app. right. left. reflexivity.
Qed.

Lemma RaisedFor_Documented (c t : string) (e : Exception) :
  RaisedFor c t e -> Documented e.
Proof. destruct 1; constructor. Qed.

(** What resolution can throw: one of its two errors, or the fault of
    line 21 or line 40 on a symbol without [declarations]. *)
Lemma resolveSignature_Throw_inv (tc : TypeChecker)
    (commandName typeText : string) (methodSymbol : Symbol) (e : Exception) :
  resolveSignature tc commandName typeText methodSymbol = Throw e ->
  RaisedFor commandName typeText e
  \/ (e = TypeError "length"
      /\ (declarations methodSymbol = None
          \/ exists d signature parameterSymbol,
               declarations methodSymbol = Some [PropertySignature d]
               /\ getCallSignatures (getTypeFromTypeNode tc (prop_type d))
                  = Some [signature]
               /\ In parameterSymbol (sig_parameters signature)
               /\ declarations parameterSymbol = None)).
Proof.
  unfold resolveSignature.
  destruct (declarations methodSymbol) as [[| decl [| decl' ds]] |] eqn:Hdecl;
    try discriminate.
  - destruct decl as [d | d | d | d |]; try discriminate.
    + destruct (declaresTypeParameters (typeParameters d)); [| discriminate].
      intros H. injection H as <-. left. constructor.
    + destruct (declaresTypeParameters (typeParameters d)); [| discriminate].
      intros H. injection H as <-. left. constructor.
    + destruct (getCallSignatures _) as [[| signature [| s' sigs]] |] eqn:Hsigs;
        try discriminate.
      destruct (declaresTypeParameters (sig_typeParameters signature)).
      * intros H. injection H as <-. left. constructor.
      * intros H. apply bind_Throw_inv in H as [H | (ps & _ & H)]; [| discriminate H].
        apply mapE_Throw_inv in H as (before & sym & after & Hparams & _ & Hsym).
        unfold parameterOfSymbol in Hsym.
        destruct (declarations sym) as [[| [| | | p |] [| decl' ds]] |] eqn:Hsymdecl;
          try discriminate Hsym; injection Hsym as <-;
          try (left; constructor).
        right. split; [reflexivity |]. right.
        exists d, signature, sym. repeat split; try assumption.
        rewrite Hparams. apply in_or_app. right. left. reflexivity.
  - intros H. injection H as <-. right. split; [reflexivity |]. left. reflexivity.
Qed.

Lemma parseParam_Throw_Documented (tc : TypeChecker) (commandName typeText : string)
    (param : ParameterDeclaration) (e : Exception) :
  isDefined (param_type param) = true ->
  parseParam tc commandName typeText param = Throw e ->
  Documented e.
Proof.
  unfold parseParam. intros Hannotated.
  destruct (classify _); [discriminate |].
  destruct (param_type param) as [declared |]; [| discriminate Hannotated].
  intros H. injection H as <-. constructor.
Qed.

Lemma validateSignature_Throw_Documented (tc : TypeChecker)
    (commandName typeText : string) (rs : ResolvedSignature) (e : Exception) :
  forallb (fun p => isDefined (param_type p)) (funcParameters rs) = true ->
  validateSignature tc commandName typeText rs = Throw e ->
  Documented e.
Proof.
  unfold validateSignature. intros Hannotated.
  destruct (isVoid (funcReturnType rs)); simpl;
    [| intros H; injection H as <-; constructor].
  destruct (funcParameters rs) as [| first rest];
    [intros H; injection H as <-; constructor |].
  simpl in Hannotated. apply andb_true_iff in Hannotated as [Hfirst Hrest].
  destruct (param_type first) as [v |]; [| discriminate Hfirst].
  destruct (refShapeRejected v); [intros H; injection H as <-; constructor |].
  intros H. apply bind_Throw_inv in H as [H | (ps & _ & H)]; [| discriminate H].
  eapply mapE_Throw_Documented; [| exact H].
  intros p e' Hin Hp.
  apply (parseParam_Throw_Documented _ _ _ _ _ (proj1 (forallb_forall _ _) Hrest p Hin) Hp).
Qed.

Lemma parseCommand_Throw_Documented (info : ExportCommandInfo) (commandName : string)
    (e : Exception) :
  (forall methodSymbol,
     getProperty (mappedType info) commandName = Some methodSymbol ->
     declarations methodSymbol <> None
     /\ forall d signature,
          declarations methodSymbol = Some [PropertySignature d] ->
          getCallSignatures
            (getTypeFromTypeNode (getTypeChecker (program info)) (prop_type d))
          = Some [signature] ->
          Forall (fun parameterSymbol => declarations parameterSymbol <> None)
                 (sig_parameters signature)) ->
  (forall rs,
     resolvesTo info commandName rs ->
     forallb (fun p => isDefined (param_type p)) (funcParameters rs) = true) ->
  parseCommand info commandName = Throw e ->
  Documented e.
Proof.
  intros Hpresent Hannotated. unfold parseCommand.
  destruct (getProperty (mappedType info) commandName) as [s |] eqn:Hs;
    [| intros H; injection H as <-; constructor].
  intros H. apply bind_Throw_inv in H as [H | ([rs |] & Hrs & H)].
  - destruct (Hpresent s eq_refl) as [Hmember Hparams].
    apply resolveSignature_Throw_inv in H
      as [H | (_ & [Hnone | (d & signature & sym & Hdecl & Hsigs & Hin & Hnone)])].
    + exact (RaisedFor_Documented _ _ _ H).
    + contradiction.
    + exfalso.
      exact (proj1 (Forall_forall _ _) (Hparams d signature Hdecl Hsigs) sym Hin Hnone).
  - assert (Hresolved : resolvesTo info commandName rs).
    { exists s. split; assumption. }
    exact (validateSignature_Throw_Documented _ _ _ _ _ (Hannotated rs Hresolved) H).
  - injection H as <-. constructor.
Qed.

Lemma parseCommands_Throw_Documented (info : ExportCommandInfo) (e : Exception) :
  declarationsPresent info ->
  parametersAnnotated info ->
  parseCommands info = Throw e ->
  Documented e.
Proof.
  intros Hpresent Hannotated H. rewrite parseCommands_mapE in H.
  eapply mapE_Throw_Documented; [| exact H].
  intros n e' Hin Hn.
  apply (parseCommand_Throw_Documented info n e'); [| | exact Hn].
  - intros s Hs. exact (Hpresent n s Hin Hs).
  - intros rs Hrs. exact (Hannotated n rs Hin Hrs).
Qed.

Lemma TypeError_not_Documented (property : string) :
  ~ Documented (TypeError property).
Proof. intros H. inversion H. Qed.

End Properties.

(** C10, as amended. When every symbol the parser reads has its
    [declarations] and every parameter of a resolved signature has a
    type annotation, [parseCommands] either returns or throws one of its
    own errors; return-type annotations are not needed for that.  A
    parameter without annotation can make it fault: the first parameter
    is dereferenced at line 61 and a later one at line 88, and the
    resulting [TypeError] is none of the documented errors.  A method
    without return-type annotation does not fault: its absent node goes
    to the checker and the call throws "should return void". *)
Theorem faults_without_annotations :
  (forall (categories : TypeCategories) (info : ExportCommandInfo),
     declarationsPresent info ->
     parametersAnnotated info ->
     (exists cs, parseCommands info = Return cs)
     \/ (exists e, parseCommands info = Throw e /\ Documented e))
  /\ (~ parametersAnnotated (focusOnly [unannotatedFirstDecl])
      /\ parseCommands (categories := flagCategories) (focusOnly [unannotatedFirstDecl])
         = Throw (TypeError "kind"))
  /\ (~ parametersAnnotated (focusOnly [unannotatedLaterDecl])
      /\ parseCommands (categories := flagCategories) (focusOnly [unannotatedLaterDecl])
         = Throw (TypeError "getText"))
  /\ (forall property, ~ Documented (TypeError property))
  /\ (type noReturnDecl = None
      /\ parseCommands (categories := flagCategories)
                       (focusOnly [MethodSignature noReturnDecl])
         = Throw (Error "Command focus in type MyViewCommands should return void.")).
Proof.
  split; [| split; [| split; [| split]]].
  - intros categories info Hpresent Hannotated.
    destruct (parseCommands info) as [cs | e] eqn:H.
    + left. exists cs. reflexivity.
    + right. exists e. split; [reflexivity |].
      exact (parseCommands_Throw_Documented info e Hpresent Hannotated H).
  - split; [| reflexivity].
    intros H.
    specialize (H "focus"
                  {| funcDecl := unannotatedFirstDecl;
                     funcReturnType := voidType;
                     funcParameters := [{| param_name := "viewRef"; param_type := None |}] |}
                  (or_introl eq_refl)).
    assert (Hfalse : false = true); [| discriminate Hfalse].
    apply H. exists (focusSymbol [unannotatedFirstDecl]). split; reflexivity.
  - split; [| reflexivity].
    intros H.
    specialize (H "focus"
                  {| funcDecl := unannotatedLaterDecl;
                     funcReturnType := voidType;
                     funcParameters :=
                       [viewRef; {| param_name := "durationMs"; param_type := None |}] |}
                  (or_introl eq_refl)).
    assert (Hfalse : false = true); [| discriminate Hfalse].
    apply H. exists (focusSymbol [unannotatedLaterDecl]). split; reflexivity.
  - exact TypeError_not_Documented.
  - split; reflexivity.
Qed.

(** ** The theorems at the sample programs *)

Lemma reaches_first (categories : TypeCategories) (info : ExportCommandInfo)
    (commandName : string) (after : list string) :
  supportedCommands info = commandName :: after ->
  reaches info commandName.
Proof.
  intros H. exists [], after. split; [exact H | constructor].
Defined.

Lemma parseCommands_focus_witness :
  parseCommands (categories := flagCategories) focusInfo = Return [focusCommand].
Proof.
  apply (parseCommands_focus (categories := flagCategories)
           focusInfo (focusSymbol [focusDecl])); reflexivity.
Defined.

Lemma parseCommands_all_or_nothing_witness :
  (exists cs,
     parseCommands (categories := flagCategories) twoCommandsInfo = Return cs
     /\ List.length cs = 2
     /\ map name cs = ["focus"; "setColor"])
  /\ (exists e, parseCommands (categories := flagCategories) missingInfo = Throw e).
Proof.
  split.
  - destruct (proj1 (parseCommands_all_or_nothing (categories := flagCategories)
                       twoCommandsInfo))
      as (cs & Hcs & Hlen & Hnames & _).
    + repeat constructor; eexists; reflexivity.
    + exists cs. repeat split; assumption.
  - destruct (proj2 (parseCommands_all_or_nothing (categories := flagCategories)
                       missingInfo))
      as (n & e & _ & _ & He & _).
    + apply Exists_cons_tl, Exists_cons_hd. eexists. reflexivity.
    + exists e. exact He.
Defined.

Lemma not_single_declaration_not_a_function_witness :
  parseCommands (categories := flagCategories) (focusOnly [focusDecl; focusDecl])
  = Throw (Error "Command focus in type MyViewCommands should be a function.")
  /\ parseCommands (categories := flagCategories) (focusOnly [])
     = Throw (Error "Command focus in type MyViewCommands should be a function.").
Proof.
  split.
  - apply (not_single_declaration_not_a_function (categories := flagCategories)
             (focusOnly [focusDecl; focusDecl]) "focus"
             (focusSymbol [focusDecl; focusDecl]) [focusDecl; focusDecl]).
    + apply (reaches_first _ _ _ []). reflexivity.
    + reflexivity.
    + reflexivity.
    + simpl. lia.
  - apply (not_single_declaration_not_a_function (categories := flagCategories)
             (focusOnly []) "focus" (focusSymbol []) []).
    + apply (reaches_first _ _ _ []). reflexivity.
    + reflexivity.
    + reflexivity.
    + simpl. lia.
Defined.

Lemma parameters_classified_in_order_witness :
  Forall2
    (fun commandName c =>
       exists rs first rest,
         resolvesTo twoCommandsInfo commandName rs
         /\ funcParameters rs = first :: rest
         /\ Forall2
              (fun param a =>
                 pa_name a = param_name param
                 /\ match pa_typeAnnotation a with
                    | StringTypeAnnotation =>
                        @isString flagCategories
                          (getTypeFromTypeNode (getTypeChecker (program twoCommandsInfo))
                                               (param_type param)) = true
                    | BooleanTypeAnnotation =>
                        @isString flagCategories
                          (getTypeFromTypeNode (getTypeChecker (program twoCommandsInfo))
                                               (param_type param)) = false
                        /\ @isBoolean flagCategories
                             (getTypeFromTypeNode (getTypeChecker (program twoCommandsInfo))
                                                  (param_type param)) = true
                    | Int32TypeAnnotation =>
                        @isString flagCategories
                          (getTypeFromTypeNode (getTypeChecker (program twoCommandsInfo))
                                               (param_type param)) = false
                        /\ @isBoolean flagCategories
                             (getTypeFromTypeNode (getTypeChecker (program twoCommandsInfo))
                                                  (param_type param)) = false
                        /\ @isInt32 flagCategories
                             (getTypeFromTypeNode (getTypeChecker (program twoCommandsInfo))
                                                  (param_type param)) = true
                    end)
              rest (params (typeAnnotation c)))
    ["focus"; "setColor"] [focusCommand; setColorCommand]
  /\ parseCommands (categories := flagCategories) (focusOnly [unsupportedDecl])
     = Throw (Error "Parameter items in command focus in type MyViewCommands should be either string, boolean or Int32, instead of string[].").
Proof.
  split.
  - apply (proj1 (parameters_classified_in_order (categories := flagCategories)
                    twoCommandsInfo)
             [focusCommand; setColorCommand]).
    reflexivity.
  - apply (proj2 (parameters_classified_in_order (categories := flagCategories)
                    (focusOnly [unsupportedDecl]))
             "focus"
             {| funcDecl := unsupportedDecl;
                funcReturnType := voidType;
                funcParameters :=
                  [viewRef; {| param_name := "durationMs"; param_type := Some int32Node |};
                   itemsParameter] |}
             viewRef refNode
             [{| param_name := "durationMs"; param_type := Some int32Node |}]
             itemsParameter [] (OtherNode "string[]")).
    + apply (reaches_first _ _ _ []). reflexivity.
    + exists (focusSymbol [unsupportedDecl]). split; reflexivity.
    + reflexivity.
    + reflexivity.
    + reflexivity.
    + reflexivity.
    + repeat constructor.
    + reflexivity.
    + reflexivity.
    + reflexivity.
    + reflexivity.
Defined.

Lemma first_parameter_not_a_reference_witness :
  parseCommands (categories := flagCategories) (focusOnly [numberRefDecl])
  = Throw (Error "The first parameter in command focus in type MyViewCommands should be React.Ref<'NAME'>.").
Proof.
  apply (first_parameter_not_a_reference (categories := flagCategories)
           (focusOnly [numberRefDecl]) "focus"
           {| funcDecl := numberRefDecl;
              funcReturnType := voidType;
              funcParameters := [{| param_name := "viewRef"; param_type := Some numberNode |}] |}
           {| param_name := "viewRef"; param_type := Some numberNode |} [] numberNode).
  - apply (reaches_first _ _ _ []). reflexivity.
  - exists (focusSymbol [numberRefDecl]). split; reflexivity.
  - reflexivity.
  - reflexivity.
  - reflexivity.
  - reflexivity.
Defined.

Lemma generic_command_rejected_witness :
  parseCommands (categories := flagCategories) (focusOnly [MethodSignature genericDecl])
  = Throw (Error "Command focus in type MyViewCommands should not be generic.")
  /\ parseCommands (categories := flagCategories)
                   (setColorOnly [setColorSignature (Some ["T"])])
     = Throw (Error "Command setColor in type MyViewCommands should not be generic.").
Proof.
  split.
  - apply (proj1 (generic_command_rejected (categories := flagCategories)
                    (focusOnly [MethodSignature genericDecl]) "focus"
                    (focusSymbol [MethodSignature genericDecl])
                    (MethodSignature genericDecl)
                    (reaches_first flagCategories
                       (focusOnly [MethodSignature genericDecl]) "focus" [] eq_refl)
                    eq_refl eq_refl)
             genericDecl ["T"]).
    + left. reflexivity.
    + reflexivity.
    + discriminate.
  - apply (proj2 (generic_command_rejected (categories := flagCategories)
                    (setColorOnly [setColorSignature (Some ["T"])]) "setColor"
                    setColorSymbol (PropertySignature setColorDecl)
                    (reaches_first flagCategories
                       (setColorOnly [setColorSignature (Some ["T"])]) "setColor" []
                       eq_refl)
                    eq_refl eq_refl)
             setColorDecl (setColorSignature (Some ["T"])) ["T"]).
    + reflexivity.
    + reflexivity.
    + reflexivity.
    + discriminate.
Defined.

Lemma non_void_return_rejected_witness :
  parseCommands (categories := flagCategories) (focusOnly [numberReturnDecl])
  = Throw (Error "Command focus in type MyViewCommands should return void.")
  /\ parseCommands (categories := flagCategories) (focusOnly [MethodSignature noReturnDecl])
     = Throw (Error "Command focus in type MyViewCommands should return void.").
Proof.
  split.
  - apply (proj1 (non_void_return_rejected (categories := flagCategories)
                    (focusOnly [numberReturnDecl]) "focus"
                    (reaches_first flagCategories
                       (focusOnly [numberReturnDecl]) "focus" [] eq_refl))
             {| funcDecl := numberReturnDecl;
                funcReturnType := numberType;
                funcParameters := [viewRef] |}).
    + exists (focusSymbol [numberReturnDecl]). split; reflexivity.
    + reflexivity.
  - apply (proj2 (non_void_return_rejected (categories := flagCategories)
                    (focusOnly [MethodSignature noReturnDecl]) "focus"
                    (reaches_first flagCategories
                       (focusOnly [MethodSignature noReturnDecl]) "focus" [] eq_refl))
             (focusSymbol [MethodSignature noReturnDecl]) noReturnDecl);
      reflexivity.
Defined.

Lemma property_needs_one_call_signature_witness :
  resolvesTo (setColorOnly [setColorSignature None]) "setColor"
    {| funcDecl := PropertySignature setColorDecl;
       funcReturnType := voidType;
       funcParameters := setColorParameters |}
  /\ parseCommands (categories := flagCategories)
                   (setColorOnly [setColorSignature None; setColorSignature None])
     = Throw (Error "Command setColor in type MyViewCommands should be a function.")
  /\ parseCommands (categories := flagCategories) (setColorOnly [])
     = Throw (Error "Command setColor in type MyViewCommands should be a function.").
Proof.
  split; [| split].
  - apply (proj1 (proj2 (property_needs_one_call_signature (categories := flagCategories)
                           (setColorOnly [setColorSignature None]) "setColor"
                           setColorSymbol setColorDecl eq_refl eq_refl))
             (setColorSignature None) setColorParameters).
    + reflexivity.
    + reflexivity.
    + repeat constructor.
  - apply (proj2 (proj2 (property_needs_one_call_signature (categories := flagCategories)
                           (setColorOnly [setColorSignature None; setColorSignature None])
                           "setColor" setColorSymbol setColorDecl eq_refl eq_refl))).
    + simpl. lia.
    + apply (reaches_first _ _ _ []). reflexivity.
  - apply (proj2 (proj2 (property_needs_one_call_signature (categories := flagCategories)
                           (setColorOnly []) "setColor"
                           setColorSymbol setColorDecl eq_refl eq_refl))).
    + simpl. lia.
    + apply (reaches_first _ _ _ []). reflexivity.
Defined.

Lemma optional_follows_question_token_witness :
  Forall2
    (fun commandName c =>
       exists methodSymbol decl,
         getProperty (mappedType optionalAndPlainInfo) commandName = Some methodSymbol
         /\ declarations methodSymbol = Some [decl]
         /\ ((exists d,
                 (decl = MethodSignature d \/ decl = CallSignatureDeclaration d)
                 /\ match questionToken d with
                    | Some _ => optional c = true
                    | None => optional c = false
                    end)
             \/ (exists d,
                    decl = PropertySignature d
                    /\ match prop_questionToken d with
                       | Some _ => optional c = true
                       | None => optional c = false
                       end)))
    ["focus"; "setColor"]
    [{| name := "focus"; optional := true;
        typeAnnotation := {| fta_type := "FunctionTypeAnnotation"; params := [] |} |};
     {| name := "setColor"; optional := false;
        typeAnnotation :=
          {| fta_type := "FunctionTypeAnnotation";
             params := [{| pa_name := "color"; pa_typeAnnotation := StringTypeAnnotation |};
                        {| pa_name := "animated";
                           pa_typeAnnotation := BooleanTypeAnnotation |}] |} |}].
Proof.
  apply (optional_follows_question_token (categories := flagCategories)
           optionalAndPlainInfo).
  reflexivity.
Defined.

Lemma faults_without_annotations_witness :
  (exists cs, parseCommands (categories := flagCategories) twoCommandsInfo = Return cs)
  \/ (exists e, parseCommands (categories := flagCategories) twoCommandsInfo = Throw e
                /\ Documented e).
Proof.
  apply (proj1 faults_without_annotations flagCategories twoCommandsInfo).
  - intros commandName s [<- | [<- | []]] Hs; injection Hs as <-.
    + split; [discriminate | intros d signature Hdecl; discriminate Hdecl].
    + split; [discriminate |].
      intros d signature Hdecl Hsigs.
      injection Hdecl as <-. injection Hsigs as <-.
      repeat constructor; discriminate.
  - intros commandName rs [<- | [<- | []]] (s & Hs & Hrs);
      injection Hs as <-; injection Hrs as <-; reflexivity.
Defined.

(** ** Further properties of [parseCommands] *)

Section FurtherProperties.

Context {categories : TypeCategories}.

Lemma mapE_app {A B : Type} (f : A -> Result B) (l1 l2 : list A) :
  mapE f (l1 ++ l2) =
  (xs <- mapE f l1 ;; ys <- mapE f l2 ;; Return (xs ++ ys)).
Proof.
  induction l1 as [| x xs IH]; simpl.
  - destruct (mapE f l2); reflexivity.
  - destruct (f x) as [y | e]; simpl; [| reflexivity].
    rewrite IH.
    destruct (mapE f xs) as [ys | e]; simpl; [| reflexivity].
    destruct (mapE f l2); reflexivity.
Qed.

Lemma mapE_ext {A B : Type} (f g : A -> Result B) (l : list A) :
  (forall x, f x = g x) -> mapE f l = mapE g l.
Proof.
  intros H. induction l as [| x xs IH]; simpl; [reflexivity |].
  rewrite H, IH. reflexivity.
Qed.

Lemma refShapeRejected_iff (viewRefType : Node) :
  refShapeRejected viewRefType = true <->
  isTypeReferenceNode viewRefType = false
  \/ exists typeName literal text,
       viewRefType = TypeReferenceNode typeName (Some [StringLiteral literal]) text
       /\ typeName <> "React.Ref".
Proof.
  split.
  - intros H. destruct viewRefType as [typeName args text | | |];
      try (left; reflexivity).
    right. apply refShapeRejected_reference in H as [Hname [literal ->]].
    exists typeName, literal, text. split; [reflexivity | exact Hname].
  - intros [H | (typeName & literal & text & -> & Hname)].
    + exact (refShapeRejected_not_reference _ H).
    + apply refShapeRejected_reference. split; [exact Hname |].
      exists literal. reflexivity.
Qed.

Lemma parseParam_never_NotRef (tc : TypeChecker) (commandName typeText : string)
    (param : ParameterDeclaration) (c t : string) :
  parseParam tc commandName typeText param <> Throw (Error (msgNotRef c t)).
Proof.
  unfold parseParam.
  destruct (classify _); [discriminate |].
  destruct (param_type param); discriminate.
Qed.

(** X1. A requested name that is not a member of the type makes the
    call throw "Unable to find command ... in type ...", with that name
    and the text of the type. *)
Theorem missing_member_not_found (info : ExportCommandInfo) (commandName : string) :
  reaches info commandName ->
  getProperty (mappedType info) commandName = None ->
  parseCommands info =
  Throw (Error (msgNotFound commandName (getText (typeNode info)))).
Proof.
  intros Hreach Hnone.
  apply (parseCommands_reaches_Throw _ _ _ Hreach).
  unfold parseCommand. rewrite Hnone. reflexivity.
Qed.

(** X2. A resolved command that returns void and declares no parameter
    makes the call throw "Command ... should have at least one
    parameter." *)
Theorem no_parameter_rejected (info : ExportCommandInfo) (commandName : string)
    (rs : ResolvedSignature) :
  reaches info commandName ->
  resolvesTo info commandName rs ->
  isVoid (funcReturnType rs) = true ->
  funcParameters rs = [] ->
  parseCommands info =
  Throw (Error (msgNoParameter commandName (getText (typeNode info)))).
Proof.
  intros Hreach Hrs Hvoid Hps.
  apply (parseCommands_reaches_Throw _ _ _ Hreach).
  rewrite (parseCommand_resolved _ _ _ Hrs).
  unfold validateSignature. rewrite Hvoid, Hps. reflexivity.
Qed.

(** X3. For a command declared as a property whose type has one call
    signature without type parameters, take the first parameter symbol
    of that signature that is not declared exactly once as a parameter.
    If it has declarations, the call throws "Parameter ... should be a
    parameter." with the name of that symbol; if it has no
    [declarations] at all, the call faults on [length].  Either way the
    return type of the signature is not looked at. *)
Theorem malformed_parameter_rejected (info : ExportCommandInfo)
    (commandName : string) (methodSymbol : Symbol) (d : PropertySignatureDeclaration)
    (signature : Signature) (before : list Symbol) (parameterSymbol : Symbol)
    (after : list Symbol) :
  reaches info commandName ->
  getProperty (mappedType info) commandName = Some methodSymbol ->
  declarations methodSymbol = Some [PropertySignature d] ->
  getCallSignatures (getTypeFromTypeNode (getTypeChecker (program info)) (prop_type d))
  = Some [signature] ->
  sig_typeParameters signature = None \/ sig_typeParameters signature = Some [] ->
  sig_parameters signature = before ++ parameterSymbol :: after ->
  Forall (fun b => exists p, declarations b = Some [ParameterNode p]) before ->
  (forall sites,
     declarations parameterSymbol = Some sites ->
     (forall p, sites <> [ParameterNode p]) ->
     parseCommands info =
     Throw (Error (msgNotAParameter (symbol_name parameterSymbol) commandName
                                    (getText (typeNode info)))))
  /\ (declarations parameterSymbol = None ->
      parseCommands info = Throw (TypeError "length")).
Proof.
  intros Hreach Hsym Hdecl Hsigs Htps Hparams Hbefore.
  assert (Hgeneric : declaresTypeParameters (sig_typeParameters signature) = false).
  { destruct Htps as [-> | ->]; reflexivity. }
  assert (Hthrow : forall e,
             parameterOfSymbol commandName (getText (typeNode info)) parameterSymbol
             = Throw e ->
             parseCommands info = Throw e).
  { intros e He.
    apply (parseCommands_reaches_Throw _ _ _ Hreach).
    rewrite (parseCommand_found _ _ _ Hsym).
    unfold resolveSignature. rewrite Hdecl. simpl. rewrite Hsigs, Hgeneric, Hparams.
    rewrite (mapE_first_Throw _ before parameterSymbol after e).
    - reflexivity.
    - eapply Forall_impl; [| exact Hbefore].
      intros b (p & Hp). exists p. unfold parameterOfSymbol. rewrite Hp. reflexivity.
    - exact He. }
  split.
  - intros sites Hsites Hbad. apply Hthrow.
    unfold parameterOfSymbol. rewrite Hsites.
    destruct sites as [| [| | | p |] [| decl' ds]]; try reflexivity.
    contradiction (Hbad p). reflexivity.
  - intros Hnone. apply Hthrow.
    unfold parameterOfSymbol. rewrite Hnone. reflexivity.
Qed.

(** X4. For a command that got past resolution, the return-type check
    and the arity check, and whose first parameter has a declared type:
    the turn of the loop throws "The first parameter ... should be
    React.Ref<'NAME'>." exactly when that type is not a type reference,
    or is a reference not named [React.Ref] whose only type argument is
    a string-literal token; when it does, so does the call. *)
Theorem ref_check_rejects_exactly (info : ExportCommandInfo) (commandName : string)
    (rs : ResolvedSignature) (first : ParameterDeclaration)
    (rest : list ParameterDeclaration) (viewRefType : Node) :
  resolvesTo info commandName rs ->
  isVoid (funcReturnType rs) = true ->
  funcParameters rs = first :: rest ->
  param_type first = Some viewRefType ->
  (parseCommand info commandName
   = Throw (Error (msgNotRef commandName (getText (typeNode info))))
   <-> (isTypeReferenceNode viewRefType = false
        \/ exists typeName literal text,
             viewRefType = TypeReferenceNode typeName (Some [StringLiteral literal]) text
             /\ typeName <> "React.Ref"))
  /\ (reaches info commandName ->
      parseCommand info commandName
      = Throw (Error (msgNotRef commandName (getText (typeNode info)))) ->
      parseCommands info
      = Throw (Error (msgNotRef commandName (getText (typeNode info))))).
Proof.
  intros Hrs Hvoid Hps Hfirst. split.
  - rewrite (parseCommand_resolved _ _ _ Hrs).
    rewrite (validateSignature_parameters _ _ _ _ _ _ _ Hvoid Hps Hfirst).
    rewrite <- refShapeRejected_iff.
    destruct (refShapeRejected viewRefType); split; try reflexivity; try discriminate.
    intros H. exfalso.
    apply bind_Throw_inv in H as [H | (ps & _ & H)]; [| discriminate H].
    apply mapE_Throw_inv in H as (before & p & after & _ & _ & Hp).
    exact (parseParam_never_NotRef _ _ _ _ _ _ Hp).
  - intros Hreach H. exact (parseCommands_reaches_Throw _ _ _ Hreach H).
Qed.

(** X5. A request that is two lists of names one after the other gives
    the commands of the first list followed by those of the second, and
    throws what the first list throws, else what the second throws.
    Names are not deduplicated: a name requested twice is emitted
    twice. *)
Theorem parseCommands_app (info : ExportCommandInfo) (names1 names2 : list string) :
  parseCommands (withCommands info (names1 ++ names2)) =
  (cs1 <- parseCommands (withCommands info names1) ;;
   cs2 <- parseCommands (withCommands info names2) ;;
   Return (cs1 ++ cs2)).
Proof.
  rewrite !parseCommands_mapE. simpl.
  rewrite (mapE_ext (parseCommand (withCommands info (names1 ++ names2)))
                    (parseCommand info)), mapE_app by reflexivity.
  rewrite (mapE_ext (parseCommand (withCommands info names1)) (parseCommand info))
    by reflexivity.
  rewrite (mapE_ext (parseCommand (withCommands info names2)) (parseCommand info))
    by reflexivity.
  reflexivity.
Qed.

Lemma parseParam_names (tc : TypeChecker) (commandName typeText : string)
    (rest : list ParameterDeclaration) (ps : list CommandsFunctionTypeParamAnnotation) :
  Forall2 (fun param a => parseParam tc commandName typeText param = Return a) rest ps ->
  map pa_name ps = map param_name rest.
Proof.
  induction 1 as [| p a rest' ps' Hpa _ IH]; simpl.
  - reflexivity.
  - rewrite (proj1 (parseParam_Return_inv _ _ _ _ _ Hpa)), IH. reflexivity.
Qed.

(** X6. Every emitted command is tagged [FunctionTypeAnnotation], and
    the names of its parameters are, in order, the names of the
    parameters that its resolved signature declares after the first:
    the first parameter is left out and nothing else is. *)
Theorem first_parameter_never_emitted (info : ExportCommandInfo)
    (cs : list CommandTypeShape) :
  parseCommands info = Return cs ->
  Forall2
    (fun commandName c =>
       fta_type (typeAnnotation c) = "FunctionTypeAnnotation"
       /\ exists rs first rest,
            resolvesTo info commandName rs
            /\ funcParameters rs = first :: rest
            /\ map pa_name (params (typeAnnotation c)) = map param_name rest)
    (supportedCommands info) cs.
Proof.
  intros Hcs. rewrite parseCommands_mapE in Hcs.
  apply mapE_Return_Forall2 in Hcs.
  eapply Forall2_impl; [| exact Hcs].
  intros n c Hc. simpl in Hc.
  apply parseCommand_Return_inv in Hc as (rs & Hrs & Hc).
  apply validateSignature_Return_inv in Hc
    as (first & rest & v & ps & _ & Hps & _ & _ & Hmap & ->).
  simpl. split; [reflexivity |].
  exists rs, first, rest. split; [exact Hrs |]. split; [exact Hps |].
  apply mapE_Return_Forall2 in Hmap.
  exact (parseParam_names _ _ _ _ _ Hmap).
Qed.

Lemma validateSignature_Throw_RaisedFor (tc : TypeChecker)
    (commandName typeText : string) (rs : ResolvedSignature) (e : Exception) :
  validateSignature tc commandName typeText rs = Throw e ->
  RaisedFor commandName typeText e \/ exists property, e = TypeError property.
Proof.
  unfold validateSignature.
  destruct (isVoid (funcReturnType rs)); simpl;
    [| intros H; injection H as <-; left; constructor].
  destruct (funcParameters rs) as [| first rest];
    [intros H; injection H as <-; left; constructor |].
  destruct (param_type first) as [v |];
    [| intros H; injection H as <-; right; eexists; reflexivity].
  destruct (refShapeRejected v); [intros H; injection H as <-; left; constructor |].
  intros H. apply bind_Throw_inv in H as [H | (ps & _ & H)]; [| discriminate H].
  apply mapE_Throw_inv in H as (before & p & after & _ & _ & Hp).
  unfold parseParam in Hp.
  destruct (classify _); [discriminate Hp |].
  destruct (param_type p); injection Hp as <-.
  - left. constructor.
  - right. eexists. reflexivity.
Qed.

Lemma parseCommand_Throw_RaisedFor (info : ExportCommandInfo) (commandName : string)
    (e : Exception) :
  parseCommand info commandName = Throw e ->
  RaisedFor commandName (getText (typeNode info)) e
  \/ exists property, e = TypeError property.
Proof.
  unfold parseCommand.
  destruct (getProperty (mappedType info) commandName) as [s |];
    [| intros H; injection H as <-; left; constructor].
  intros H. apply bind_Throw_inv in H as [H | ([rs |] & _ & H)].
  - apply resolveSignature_Throw_inv in H as [H | [-> _]].
    + left. exact H.
    + right. eexists. reflexivity.
  - exact (validateSignature_Throw_RaisedFor _ _ _ _ _ H).
  - injection H as <-. left. constructor.
Qed.

(** X7. Whatever the call throws was thrown for one requested name,
    the first that fails: unless it is a [TypeError], its message is one
    of the eight forms, built from that name and from the text of the
    type node. *)
Theorem thrown_error_names_requested_command (info : ExportCommandInfo)
    (e : Exception) :
  parseCommands info = Throw e ->
  exists commandName,
    In commandName (supportedCommands info)
    /\ reaches info commandName
    /\ parseCommand info commandName = Throw e
    /\ (RaisedFor commandName (getText (typeNode info)) e
        \/ exists property, e = TypeError property).
Proof.
  intros H. rewrite parseCommands_mapE in H.
  apply mapE_Throw_inv in H as (before & n & after & Hnames & Hbefore & Hn).
  exists n.
  split; [rewrite Hnames; apply in_or_app; right; left; reflexivity |].
  split; [exists before, after; split; assumption |].
  split; [exact Hn |].
  exact (parseCommand_Throw_RaisedFor _ _ _ Hn).
Qed.

(** X8. The call faults in three places and no other.  On [length],
    when the member of the reached name has no [declarations], or is a
    property with one call signature one of whose parameter symbols has
    none.  On [kind], when the command resolved, returns void and its
    first parameter has no type annotation.  On [getText], when
    moreover the first parameter passed the reference check and a later
    parameter has no type annotation while the type the checker gives
    for the absent node is in none of the three categories.  A missing
    return-type annotation is in none of the three. *)
Theorem faults_come_from_three_places (info : ExportCommandInfo) (property : string) :
  parseCommands info = Throw (TypeError property) ->
  exists commandName methodSymbol,
    reaches info commandName
    /\ getProperty (mappedType info) commandName = Some methodSymbol
    /\ ((property = "length"
         /\ (declarations methodSymbol = None
             \/ exists d signature parameterSymbol,
                  declarations methodSymbol = Some [PropertySignature d]
                  /\ getCallSignatures
                       (getTypeFromTypeNode (getTypeChecker (program info)) (prop_type d))
                     = Some [signature]
                  /\ In parameterSymbol (sig_parameters signature)
                  /\ declarations parameterSymbol = None))
        \/ exists rs first rest,
             resolvesTo info commandName rs
             /\ isVoid (funcReturnType rs) = true
             /\ funcParameters rs = first :: rest
             /\ ((property = "kind" /\ param_type first = None)
                 \/ (property = "getText"
                     /\ exists viewRefType param,
                          param_type first = Some viewRefType
                          /\ refShapeRejected viewRefType = false
                          /\ In param rest
                          /\ param_type param = None
                          /\ isString (getTypeFromTypeNode (getTypeChecker (program info))
                                                           None) = false
                          /\ isBoolean (getTypeFromTypeNode (getTypeChecker (program info))
                                                            None) = false
                          /\ isInt32 (getTypeFromTypeNode (getTypeChecker (program info))
                                                          None) = false))).
Proof.
  intros H. rewrite parseCommands_mapE in H.
  apply mapE_Throw_inv in H as (before & n & after & Hnames & Hbefore & Hn).
  unfold parseCommand in Hn.
  destruct (getProperty (mappedType info) n) as [s |] eqn:Hs; [| discriminate Hn].
  exists n, s.
  split; [exists before, after; split; assumption |].
  split; [exact Hs |].
  apply bind_Throw_inv in Hn as [Hn | ([rs |] & Hrs & Hn)].
  - left. apply resolveSignature_Throw_inv in Hn as [Hn | [Hprop Hwhere]].
    + inversion Hn.
    + injection Hprop as ->. split; [reflexivity | exact Hwhere].
  - right. exists rs.
    unfold validateSignature in Hn.
    destruct (isVoid (funcReturnType rs)) eqn:Hvoid; simpl in Hn; [| discriminate Hn].
    destruct (funcParameters rs) as [| first rest] eqn:Hps; [discriminate Hn |].
    exists first, rest.
    split; [exists s; split; assumption |].
    split; [reflexivity |]. split; [reflexivity |].
    destruct (param_type first) as [v |] eqn:Hfirst.
    + right.
      destruct (refShapeRejected v) eqn:Hv; [discriminate Hn |].
      apply bind_Throw_inv in Hn as [Hn | (ps & _ & Hn)]; [| discriminate Hn].
      apply mapE_Throw_inv in Hn as (pre & p & post & -> & _ & Hp).
      unfold parseParam in Hp.
      destruct (classify _) eqn:Hclass; [discriminate Hp |].
      destruct (param_type p) eqn:Hptype; [discriminate Hp |].
      injection Hp as <-.
      apply classify_None in Hclass as (Hstr & Hbool & Hint).
      split; [reflexivity |].
      exists v, p. repeat split; try assumption.
      apply in_or_app. right. left. reflexivity.
    + left. injection Hn as <-. split; reflexivity.
  - discriminate Hn.
Qed.

Lemma mapE_ext_in {A B : Type} (f g : A -> Result B) (l : list A) :
  (forall x, In x l -> f x = g x) -> mapE f l = mapE g l.
Proof.
  induction l as [| x xs IH]; simpl; intros H; [reflexivity |].
  rewrite (H x (or_introl eq_refl)), IH; [reflexivity |].
  intros y Hy. apply H. right. exact Hy.
Qed.

(** X11. The type node counts only through its text and through the
    members of the requested names: two requests with the same checker
    and the same names, whose type nodes have the same text and whose
    types have the same member for every requested name, give the same
    result, whatever else the two types declare. *)
Theorem unrequested_members_ignored (info1 info2 : ExportCommandInfo) :
  getTypeChecker (program info1) = getTypeChecker (program info2) ->
  getText (typeNode info1) = getText (typeNode info2) ->
  supportedCommands info1 = supportedCommands info2 ->
  (forall commandName,
     In commandName (supportedCommands info1) ->
     getProperty (mappedType info1) commandName
     = getProperty (mappedType info2) commandName) ->
  parseCommands info1 = parseCommands info2.
Proof.
  intros Htc Htext Hnames Hmembers.
  rewrite !parseCommands_mapE, <- Hnames.
  apply mapE_ext_in. intros n Hn.
  unfold parseCommand. rewrite (Hmembers n Hn), Htc, Htext. reflexivity.
Qed.

End FurtherProperties.

(** ** The further properties at the sample programs *)

Lemma missing_member_not_found_witness :
  parseCommands (categories := flagCategories) missingInfo
  = Throw (Error "Unable to find command blur in type MyViewCommands.").
Proof.
  apply (missing_member_not_found (categories := flagCategories) missingInfo "blur").
  - exists ["focus"], []. split; [reflexivity |].
    constructor; [| constructor]. exists focusCommand. reflexivity.
  - reflexivity.
Defined.

Lemma no_parameter_rejected_witness :
  parseCommands (categories := flagCategories) (focusOnly [noParameterDecl])
  = Throw (Error "Command focus in type MyViewCommands should have at least one parameter.").
Proof.
  apply (no_parameter_rejected (categories := flagCategories)
           (focusOnly [noParameterDecl]) "focus"
           {| funcDecl := noParameterDecl; funcReturnType := voidType;
              funcParameters := [] |}).
  - apply (reaches_first _ _ _ []). reflexivity.
  - exists (focusSymbol [noParameterDecl]). split; reflexivity.
  - reflexivity.
  - reflexivity.
Defined.

Lemma malformed_parameter_rejected_witness :
  parseCommands (categories := flagCategories) (setColorOnly [malformedSignature])
  = Throw (Error "Parameter color in command setColor in type MyViewCommands should be a parameter.")
  /\ parseCommands (categories := flagCategories) (setColorOnly [syntheticSignature])
     = Throw (TypeError "length").
Proof.
  split.
  - destruct (malformed_parameter_rejected (categories := flagCategories)
                (setColorOnly [malformedSignature]) "setColor" setColorSymbol
                setColorDecl malformedSignature
                [parameterSymbol {| param_name := "ref"; param_type := Some refNode |}]
                {| symbol_name := "color"; declarations := Some [OtherDeclaration] |} [])
      as [Herror _].
    + apply (reaches_first _ _ _ []). reflexivity.
    + reflexivity.
    + reflexivity.
    + reflexivity.
    + left. reflexivity.
    + reflexivity.
    + constructor; [| constructor]. eexists. reflexivity.
    + apply (Herror [OtherDeclaration]); [reflexivity | discriminate].
  - destruct (malformed_parameter_rejected (categories := flagCategories)
                (setColorOnly [syntheticSignature]) "setColor" setColorSymbol
                setColorDecl syntheticSignature
                [parameterSymbol {| param_name := "ref"; param_type := Some refNode |}]
                {| symbol_name := "color"; declarations := None |} [])
      as [_ Hfault].
    + apply (reaches_first _ _ _ []). reflexivity.
    + reflexivity.
    + reflexivity.
    + reflexivity.
    + left. reflexivity.
    + reflexivity.
    + constructor; [| constructor]. eexists. reflexivity.
    + apply Hfault. reflexivity.
Defined.

Lemma ref_check_rejects_exactly_witness :
  parseCommands (categories := flagCategories) (focusOnly [bareLiteralDecl])
  = Throw (Error "The first parameter in command focus in type MyViewCommands should be React.Ref<'NAME'>.").
Proof.
  destruct (ref_check_rejects_exactly (categories := flagCategories)
              (focusOnly [bareLiteralDecl]) "focus"
              {| funcDecl := bareLiteralDecl; funcReturnType := voidType;
                 funcParameters :=
                   [{| param_name := "viewRef"; param_type := Some bareLiteralRefNode |}] |}
              {| param_name := "viewRef"; param_type := Some bareLiteralRefNode |}
              [] bareLiteralRefNode)
    as [Hiff Hcall].
  - exists (focusSymbol [bareLiteralDecl]). split; reflexivity.
  - reflexivity.
  - reflexivity.
  - reflexivity.
  - apply Hcall.
    + apply (reaches_first _ _ _ []). reflexivity.
    + apply Hiff. right. exists "Ref", "'MyView'", "Ref<'MyView'>".
      split; [reflexivity | discriminate].
Defined.

Lemma first_parameter_never_emitted_witness :
  Forall2
    (fun commandName c =>
       fta_type (typeAnnotation c) = "FunctionTypeAnnotation"
       /\ exists rs first rest,
            resolvesTo twoCommandsInfo commandName rs
            /\ funcParameters rs = first :: rest
            /\ map pa_name (params (typeAnnotation c)) = map param_name rest)
    ["focus"; "setColor"] [focusCommand; setColorCommand].
Proof.
  apply (first_parameter_never_emitted (categories := flagCategories) twoCommandsInfo).
  reflexivity.
Defined.

Lemma thrown_error_names_requested_command_witness :
  exists commandName,
    In commandName ["focus"; "blur"]
    /\ reaches (categories := flagCategories) missingInfo commandName
    /\ parseCommand (categories := flagCategories) missingInfo commandName
       = Throw (Error (msgNotFound "blur" "MyViewCommands"))
    /\ (RaisedFor commandName "MyViewCommands" (Error (msgNotFound "blur" "MyViewCommands"))
        \/ exists property, Error (msgNotFound "blur" "MyViewCommands") = TypeError property).
Proof.
  apply (thrown_error_names_requested_command (categories := flagCategories) missingInfo).
  reflexivity.
Defined.

Lemma faults_come_from_three_places_witness :
  exists commandName methodSymbol,
    reaches (categories := flagCategories) syntheticParameterInfo commandName
    /\ getProperty (mappedType syntheticParameterInfo) commandName = Some methodSymbol
    /\ (("length" = "length"
         /\ (declarations methodSymbol = None
             \/ exists d signature parameterSymbol,
                  declarations methodSymbol = Some [PropertySignature d]
                  /\ getCallSignatures
                       (getTypeFromTypeNode (getTypeChecker (program syntheticParameterInfo))
                                            (prop_type d))
                     = Some [signature]
                  /\ In parameterSymbol (sig_parameters signature)
                  /\ declarations parameterSymbol = None))
        \/ exists rs first rest,
             resolvesTo syntheticParameterInfo commandName rs
             /\ @isVoid flagCategories (funcReturnType rs) = true
             /\ funcParameters rs = first :: rest
             /\ (("length" = "kind" /\ param_type first = None)
                 \/ ("length" = "getText"
                     /\ exists viewRefType param,
                          param_type first = Some viewRefType
                          /\ refShapeRejected viewRefType = false
                          /\ In param rest
                          /\ param_type param = None
                          /\ @isString flagCategories errorType = false
                          /\ @isBoolean flagCategories errorType = false
                          /\ @isInt32 flagCategories errorType = false))).
Proof.
  apply (faults_come_from_three_places (categories := flagCategories)
           syntheticParameterInfo "length").
  reflexivity.
Defined.

Lemma unrequested_members_ignored_witness :
  parseCommands (categories := flagCategories) (scopedInfo commandsNode)
  = parseCommands (categories := flagCategories) (scopedInfo (OtherNode "MyViewCommands")).
Proof.
  apply (unrequested_members_ignored (categories := flagCategories)
           (scopedInfo commandsNode) (scopedInfo (OtherNode "MyViewCommands"))).
  - reflexivity.
  - reflexivity.
  - reflexivity.
  - intros commandName [<- | []]. reflexivity.
Defined.

(** ** Where the code departs from the specification *)

(** C3, as the specification has it, fails on a member without
    declaration sites: [focus], a member of a mapped type, has no
    [declarations], and the call faults on line 21 instead of throwing
    "should be a function". *)
Lemma no_declaration_site_faults :
  getProperty (mappedType syntheticMemberInfo) "focus"
  = Some {| symbol_name := "focus"; declarations := None |}
  /\ parseCommands (categories := flagCategories) syntheticMemberInfo
     = Throw (TypeError "length")
  /\ parseCommands (categories := flagCategories) syntheticMemberInfo
     <> Throw (Error "Command focus in type MyViewCommands should be a function.").
Proof.
  split; [reflexivity |]. split; [reflexivity | discriminate].
Qed.

(** C4, as the specification has it, fails on a later parameter
    without type annotation: in
    [focus(viewRef: Ref<'MyView'>, durationMs): void] the type resolved
    for [durationMs] is in none of the three categories, yet the call
    faults on line 88 and throws no [Error] at all. *)
Lemma unannotated_unsupported_parameter_faults :
  @isString flagCategories
    (getTypeFromTypeNode (getTypeChecker (program (focusOnly [unannotatedLaterDecl]))) None)
  = false
  /\ @isBoolean flagCategories
       (getTypeFromTypeNode (getTypeChecker (program (focusOnly [unannotatedLaterDecl]))) None)
     = false
  /\ @isInt32 flagCategories
       (getTypeFromTypeNode (getTypeChecker (program (focusOnly [unannotatedLaterDecl]))) None)
     = false
  /\ parseCommands (categories := flagCategories) (focusOnly [unannotatedLaterDecl])
     = Throw (TypeError "getText")
  /\ forall message,
       parseCommands (categories := flagCategories) (focusOnly [unannotatedLaterDecl])
       <> Throw (Error message).
Proof.
  split; [reflexivity |]. split; [reflexivity |]. split; [reflexivity |].
  split; [reflexivity |].
  intros message. discriminate.
Qed.

(** C10, as the specification has it, fails twice.  With every
    return type and every parameter annotated the call can still fault:
    [setColor]'s call signature has a parameter symbol without
    [declarations] and line 40 faults on [length].  And a method without
    return-type annotation does not fault: the call throws "should
    return void". *)
Lemma annotated_request_faults_and_missing_return_type_does_not :
  (explicitlyAnnotated syntheticParameterInfo
   /\ parseCommands (categories := flagCategories) syntheticParameterInfo
      = Throw (TypeError "length")
   /\ ~ Documented (TypeError "length"))
  /\ (type noReturnDecl = None
      /\ parseCommands (categories := flagCategories)
                       (focusOnly [MethodSignature noReturnDecl])
         = Throw (Error "Command focus in type MyViewCommands should return void.")).
Proof.
  split; [split; [| split] | split].
  - intros commandName rs [<- | [<- | []]] (s & Hs & Hrs); injection Hs as <-.
    + injection Hrs as <-. reflexivity.
    + discriminate Hrs.
  - reflexivity.
  - intros H. inversion H.
  - reflexivity.
  - reflexivity.
Qed.
